(** * Tool pipeline and turn executor of the PDLC agents

    A shallow embedding of
    - [src/agents/python/agents/sde_agent/agent.py]   (module [SdeAgent]),
    - [src/agents/implementation/agent_builder/agent.py] (module [AgentBuilder]),
    - [src/agents/implementation/coordinator_agent/agent.py] (module [CoordinatorAgent]).

    The tools are Python functions over module-level sets and over dict
    objects that they receive by reference.  They are embedded in a small
    state monad over the module globals and a heap of dict objects; the
    outcome of [random.randint] is an explicit argument. *)

From stdpp Require Import base strings gmap list pretty.
From Stdlib Require Import ZArith Lia.

Local Open Scope Z_scope.
Set Warnings "-register-all,-clear-no-such-hyp".

(** ** The fragment of Python the agents use *)
Module Py.

(** Data carried by a dict: the JSON fragment of Python values (no floats).
    A [string] is read as a sequence of code points below 256. *)
Inductive data : Type :=
| DNone
| DBool (b : bool)
| DInt (n : Z)
| DStr (s : string)
| DList (l : list data)
| DDict (d : list (string * data)).

(** The content of a dict object, in insertion order. *)
Abbreviation dict := (list (string * data)) (only parsing).

(** Dict objects live on a heap and are named by their index. *)
Abbreviation loc := nat (only parsing).
Abbreviation heap := (list dict) (only parsing).

(** An entry of a dict built by a tool: plain data, or a reference to a
    dict object that somebody else also holds. *)
Inductive value : Type :=
| Data (d : data)
| Ref (l : loc).

Definition record : Type := list (string * value).

(** [d.get(k)] *)
Fixpoint dict_lookup {A : Type} (k : string) (d : list (string * A)) : option A :=
  match d with
  | [] => None
  | (k', v) :: d' => if String.eqb k k' then Some v else dict_lookup k d'
  end.

(** [d.get(k, default)] *)
Definition dict_get {A : Type} (k : string) (default : A) (d : list (string * A)) : A :=
  match dict_lookup k d with
  | Some v => v
  | None => default
  end.

(** [d[k] = v]: an existing key keeps its place, a new key goes last. *)
Fixpoint dict_set {A : Type} (k : string) (v : A) (d : list (string * A)) : list (string * A) :=
  match d with
  | [] => [(k, v)]
  | (k', v') :: d' =>
      if String.eqb k k' then (k, v) :: d' else (k', v') :: dict_set k v d'
  end.

Definition has_key {A : Type} (k : string) (d : list (string * A)) : bool :=
  match dict_lookup k d with
  | Some _ => true
  | None => false
  end.

(** *** Text of a value *)

Definition chr (n : nat) : string := String (Ascii.ascii_of_nat n) EmptyString.
Definition nl : string := chr 10.
Definition dquote : string := chr 34.
Definition squote : string := chr 39.
Definition backslash : string := chr 92.

Definition hex_digit (n : nat) : string :=
  match n with
  | 10%nat => "a" | 11%nat => "b" | 12%nat => "c"
  | 13%nat => "d" | 14%nat => "e" | 15%nat => "f"
  | _ => chr (48 + n)
  end.

Definition hex2 (n : nat) : string :=
  hex_digit (n / 16) +:+ hex_digit (n mod 16).

Definition contains_code (n : nat) (s : string) : bool :=
  existsb (fun c => Nat.eqb (Ascii.nat_of_ascii c) n) (String.list_ascii_of_string s).

Definition join (sep : string) (l : list string) : string :=
  String.concat sep l.

(** [str(n)] for an int: its decimal text. This is what the interpreter
    prints when it prints the int; the limit it puts on the number of digits
    is in [str_int_limited] below. *)
Definition str_int (n : Z) : string := pretty n.

(** One character of [repr(s)], [q] being the code of the quote in use. *)
Definition repr_char (q : nat) (c : Ascii.ascii) : string :=
  let n := Ascii.nat_of_ascii c in
  if Nat.eqb n q || Nat.eqb n 92 then backslash +:+ chr n
  else if Nat.eqb n 9 then backslash +:+ "t"
  else if Nat.eqb n 10 then backslash +:+ "n"
  else if Nat.eqb n 13 then backslash +:+ "r"
  else if Nat.ltb n 32 || (Nat.leb 127 n && Nat.leb n 160) || Nat.eqb n 173
       then backslash +:+ "x" +:+ hex2 n
  else chr n.

(** [repr(s)] for a str: single quotes, unless the text has a single quote
    and no double quote. *)
Definition repr_str (s : string) : string :=
  let q := if contains_code 39 s && negb (contains_code 34 s) then 34%nat else 39%nat in
  chr q +:+ join "" (map (repr_char q) (String.list_ascii_of_string s)) +:+ chr q.

(** [repr(v)]: the text the interpreter prints when it prints [v]; its
    limits on digits and on nesting are in [repr_limited] below. *)
Fixpoint repr (v : data) : string :=
  match v with
  | DNone => "None"
  | DBool true => "True"
  | DBool false => "False"
  | DInt n => str_int n
  | DStr s => repr_str s
  | DList l => "[" +:+ join ", " (map repr l) +:+ "]"
  | DDict d =>
      "{" +:+ join ", " (map (fun kv => repr_str kv.1 +:+ ": " +:+ repr kv.2) d) +:+ "}"
  end.

(** [str(v)], which is also what an f-string field [{v}] prints. *)
Definition str (v : data) : string :=
  match v with
  | DStr s => s
  | _ => repr v
  end.

(** One character of a JSON string, as [json.dumps] escapes it
    (ensure_ascii is on by default). *)
Definition json_char (c : Ascii.ascii) : string :=
  let n := Ascii.nat_of_ascii c in
  if Nat.eqb n 34 || Nat.eqb n 92 then backslash +:+ chr n
  else if Nat.eqb n 8 then backslash +:+ "b"
  else if Nat.eqb n 9 then backslash +:+ "t"
  else if Nat.eqb n 10 then backslash +:+ "n"
  else if Nat.eqb n 12 then backslash +:+ "f"
  else if Nat.eqb n 13 then backslash +:+ "r"
  else if Nat.ltb n 32 || Nat.leb 127 n then backslash +:+ "u00" +:+ hex2 n
  else chr n.

Definition json_str (s : string) : string :=
  dquote +:+ join "" (map json_char (String.list_ascii_of_string s)) +:+ dquote.

(** [json.dumps(v)] with the default separators: the text the encoder
    gives when it gives one; its limits on digits and on nesting are in
    [json_dumps_limited] below. *)
Fixpoint json_dumps (v : data) : string :=
  match v with
  | DNone => "null"
  | DBool true => "true"
  | DBool false => "false"
  | DInt n => str_int n
  | DStr s => json_str s
  | DList l => "[" +:+ join ", " (map json_dumps l) +:+ "]"
  | DDict d =>
      "{" +:+ join ", " (map (fun kv => json_str kv.1 +:+ ": " +:+ json_dumps kv.2) d) +:+ "}"
  end.

(** Truth value of an optional text ([None] and the empty text are false). *)
Definition truthy_text (t : option string) : bool :=
  match t with
  | Some s => negb (String.eqb s "")
  | None => false
  end.

(** *** Faults and the state monad *)

Inductive exn : Type :=
| TypeError (msg : string)
| AttributeError (msg : string)
| NameError (msg : string)
| IndexError (msg : string)
| ValueError (msg : string)
| RecursionError (msg : string)
| DanglingReference (l : loc).

Inductive result (A : Type) : Type :=
| Return (a : A)
| Raise (e : exn).
Arguments Return {A} a.
Arguments Raise {A} e.

(** The state of one Python process: the globals [G] of the agent module
    and the dict objects. *)
Record world (G : Type) : Type := World { globals : G; objects : heap }.
Arguments World {G} globals objects.
Arguments globals {G} w.
Arguments objects {G} w.

(** A computation in such a process: the state survives a fault. *)
Definition M (G A : Type) : Type := world G -> result A * world G.

Definition ret {G A : Type} (a : A) : M G A := fun w => (Return a, w).

Definition bind {G A B : Type} (m : M G A) (k : A -> M G B) : M G B :=
  fun w =>
    match m w with
    | (Return a, w') => k a w'
    | (Raise e, w') => (Raise e, w')
    end.

Definition raise {G A : Type} (e : exn) : M G A := fun w => (Raise e, w).

Definition read_globals {G : Type} : M G G := fun w => (Return (globals w), w).

Definition write_globals {G : Type} (g : G) : M G unit :=
  fun w => (Return tt, World g (objects w)).

(** The content of the dict object [l]. *)
Definition deref {G : Type} (l : loc) : M G dict :=
  fun w =>
    match objects w !! l with
    | Some d => (Return d, w)
    | None => (Raise (DanglingReference l), w)
    end.

(** [l[k] = v] on the dict object [l]. *)
Definition setitem {G : Type} (l : loc) (k : string) (v : data) : M G unit :=
  fun w =>
    match objects w !! l with
    | Some d => (Return tt, World (globals w) (<[l := dict_set k v d]> (objects w)))
    | None => (Raise (DanglingReference l), w)
    end.

(** A new dict object, as the caller of a tool builds one from the
    arguments it decoded. *)
Definition alloc {G : Type} (d : dict) : M G loc :=
  fun w => (Return (length (objects w)), World (globals w) (objects w ++ [d])).

(** *** The limits of the interpreter on printing *)

(** [sys.get_int_max_str_digits()], which is 0 when the limit is off and at
    least 640 otherwise (4300 when the interpreter starts), and the number
    of levels of nesting that [repr], resp. the JSON encoder, can still enter
    at the place where a tool prints (what is left of the recursion limit
    there, at least one level while a tool runs). *)
Record limits : Type := Limits {
  max_str_digits : Z;
  repr_depth : nat;
  json_depth : nat
}.

(** An int has more digits than the limit allows. *)
Definition too_many_digits (lim : limits) (n : Z) : bool :=
  (0 <? max_str_digits lim) && (10 ^ max_str_digits lim <=? Z.abs n).

Definition digits_error (lim : limits) : exn :=
  ValueError ("Exceeds the limit (" +:+ pretty (max_str_digits lim) +:+
              " digits) for integer string conversion; " +:+
              "use sys.set_int_max_str_digits() to increase the limit").

(** [str(n)] for an int, with the limit on digits. *)
Definition str_int_limited (lim : limits) (n : Z) : result string :=
  if too_many_digits lim n then Raise (digits_error lim) else Return (str_int n).

(** The results of [f] on the elements of a list, in order, up to the
    first fault. *)
Fixpoint collect {A B : Type} (f : A -> result B) (l : list A) : result (list B) :=
  match l with
  | [] => Return []
  | x :: l' =>
      match f x with
      | Raise e => Raise e
      | Return y =>
          match collect f l' with
          | Raise e => Raise e
          | Return ys => Return (y :: ys)
          end
      end
  end.

(** [repr(v)] with [depth] levels left: every value it prints takes one
    level while it is printed, the elements of a list or dict one more. *)
Fixpoint repr_limited (lim : limits) (depth : nat) (v : data) : result string :=
  match depth with
  | O => Raise (RecursionError
                  "maximum recursion depth exceeded while getting the repr of an object")
  | S depth' =>
      match v with
      | DInt n => str_int_limited lim n
      | DList l =>
          match collect (repr_limited lim depth') l with
          | Raise e => Raise e
          | Return texts => Return ("[" +:+ join ", " texts +:+ "]")
          end
      | DDict d =>
          match collect (fun kv =>
                           match repr_limited lim depth' kv.2 with
                           | Raise e => Raise e
                           | Return t => Return (repr_str kv.1 +:+ ": " +:+ t)
                           end) d with
          | Raise e => Raise e
          | Return texts => Return ("{" +:+ join ", " texts +:+ "}")
          end
      | _ => Return (repr v)
      end
  end.

(** [str(v)] and the f-string field [{v}], with the limits: a str prints
    as it is. *)
Definition str_limited (lim : limits) (v : data) : result string :=
  match v with
  | DStr s => Return s
  | _ => repr_limited lim (repr_depth lim) v
  end.

(** [json.dumps(v)] with [depth] levels left: a list or dict takes one
    level while it is encoded, a scalar none. *)
Fixpoint json_dumps_limited (lim : limits) (depth : nat) (v : data) : result string :=
  match v with
  | DInt n => str_int_limited lim n
  | DList l =>
      match depth with
      | O => Raise (RecursionError
                      "maximum recursion depth exceeded while encoding a JSON object")
      | S depth' =>
          match collect (json_dumps_limited lim depth') l with
          | Raise e => Raise e
          | Return texts => Return ("[" +:+ join ", " texts +:+ "]")
          end
      end
  | DDict d =>
      match depth with
      | O => Raise (RecursionError
                      "maximum recursion depth exceeded while encoding a JSON object")
      | S depth' =>
          match collect (fun kv =>
                           match json_dumps_limited lim depth' kv.2 with
                           | Raise e => Raise e
                           | Return t => Return (json_str kv.1 +:+ ": " +:+ t)
                           end) d with
          | Raise e => Raise e
          | Return texts => Return ("{" +:+ join ", " texts +:+ "}")
          end
      end
  | _ => Return (json_dumps v)
  end.

(** A computation that ends the way a result says. *)
Definition lift_result {G A : Type} (r : result A) : M G A :=
  match r with
  | Return a => ret a
  | Raise e => raise e
  end.

End Py.

Import Py.

Declare Scope py_scope.
Delimit Scope py_scope with py.
Notation "x <- m ;; k" := (bind m (fun x => k))
  (at level 100, m at next level, right associativity) : py_scope.
Notation "m ;;; k" := (bind m (fun _ => k))
  (at level 100, right associativity) : py_scope.
Local Open Scope py_scope.

(** ** The runner of [google.adk], as the agents use it *)
Module Adk.

(** A part of a message: [text], and what [function_response.model_dump()]
    gives when the part carries a function response. *)
Record part : Type := Part {
  text : option string;
  function_response : option data
}.

(** [types.Content]; [parts] may be [None]. *)
Record content : Type := Content { parts : option (list part) }.

(** An event of a run: its content (may be [None]) and the answer of
    [is_final_response()]. *)
Record event : Type := Event {
  event_content : option content;
  is_final_response : bool
}.

(** What a turn holds in [events]: the generator object [Runner.run]
    returns, or the list [list(...)] makes of it. *)
Inductive iterable : Type :=
| Generator (items : list event)
| List (items : list event).

Definition items (it : iterable) : list event :=
  match it with
  | Generator l => l
  | List l => l
  end.

(** [list(it)] *)
Definition list_of (it : iterable) : iterable := List (items it).

(** Truth value: a generator object is true, a list is true when it is
    not empty. *)
Definition truthy (it : iterable) : bool :=
  match it with
  | Generator _ => true
  | List l => negb (bool_decide (l = []))
  end.

(** [it[-1]] *)
Definition subscript_last (it : iterable) : result event :=
  match it with
  | Generator _ => Raise (TypeError "'generator' object is not subscriptable")
  | List l =>
      match last l with
      | Some ev => Return ev
      | None => Raise (IndexError "list index out of range")
      end
  end.

(** The parts of a content; none when the content or its parts are [None]. *)
Definition parts_of (c : option content) : list part :=
  match c with
  | Some (Content (Some ps)) => ps
  | _ => []
  end.

(** [[p.text for p in parts if p.text]] *)
Definition texts (ps : list part) : list string :=
  omap (fun p => if truthy_text (text p) then text p else None) ps.

(** The session service of the runner ([google.adk], outside the
    repository), as far as a turn uses it: the ids of the sessions it holds.
    What a session holds (its history and state) is not part of the model. *)
Record runner : Type := Runner { sessions : gset string }.

(** A character [str.strip()] removes. *)
Definition is_space (c : Ascii.ascii) : bool :=
  let n := Ascii.nat_of_ascii c in
  (Nat.leb 9 n && Nat.leb n 13) || (Nat.leb 28 n && Nat.leb n 32) ||
  Nat.eqb n 133 || Nat.eqb n 160.

Fixpoint lstrip (s : string) : string :=
  match s with
  | String c s' => if is_space c then lstrip s' else s
  | EmptyString => EmptyString
  end.

(** [s.strip()] *)
Definition strip (s : string) : string :=
  String.rev (lstrip (String.rev (lstrip s))).

(** [get_session]: the session of that very id, or [None]. *)
Definition get_session (session_id : string) : M runner (option string) :=
  r <- read_globals ;;
  ret (if bool_decide (session_id ∈ sessions r) then Some session_id else None).

(** [create_session]: the id is stripped, and a blank one is replaced by
    [str(uuid.uuid4())], a new id, taken here as an id that no session
    has. *)
Definition create_session (session_id : string) : M runner string :=
  r <- read_globals ;;
  let id := if String.eqb (strip session_id) "" then fresh (sessions r)
            else strip session_id in
  write_globals (Runner ({[id]} ∪ sessions r)) ;;;
  ret id.

(** [runner.run(...)] and [runner.run_async(...)]: [produced] is the
    sequence of events the reasoning capability produces for this turn. *)
Definition run (session_id new_message : string) (produced : list event)
  : M runner iterable :=
  ret (Generator produced).

(** Lines 187-189 of [AgentBuilderTemplate.invoke], which are lines 136-138
    of [SDEAgent.invoke] and lines 57-59 of [CoordinatorAgent.invoke]. *)
Definition final_text (events : iterable) : result string :=
  if negb (truthy events) then Return ""
  else
    match subscript_last events with
    | Raise e => Raise e
    | Return ev =>
        match event_content ev with
        | None => Return ""
        | Some c =>
            match parts c with
            | None | Some [] => Return ""
            | Some ps => Return (join nl (texts ps))
            end
        end
    end.

(** What [stream] yields for one event (the body of its loop); the three
    classes differ in the text [updates] only. *)
Definition on_event (updates : string) (ev : event) : result dict :=
  if is_final_response ev then
    let ps := parts_of (event_content ev) in
    match ps with
    | p0 :: _ =>
        if truthy_text (text p0) then
          Return [("is_task_complete", DBool true);
                  ("content", DStr (join nl (texts ps)))]
        else if existsb (fun p => bool_decide (is_Some (function_response p))) ps then
          (* next(p.function_response.model_dump() for p in parts) *)
          match function_response p0 with
          | Some dump =>
              Return [("is_task_complete", DBool true); ("content", dump)]
          | None =>
              Raise (AttributeError "'NoneType' object has no attribute 'model_dump'")
          end
        else
          Return [("is_task_complete", DBool true); ("content", DStr "")]
    | [] => Return [("is_task_complete", DBool true); ("content", DStr "")]
    end
  else
    Return [("is_task_complete", DBool false); ("updates", DStr updates)].

(** The loop of [stream] over the events of the run: the items yielded,
    and the fault that ended the generator, if any. *)
Fixpoint stream_events (updates : string) (evs : list event)
  : list dict * option exn :=
  match evs with
  | [] => ([], None)
  | ev :: rest =>
      match on_event updates ev with
      | Return item =>
          let '(more, fault) := stream_events updates rest in
          (item :: more, fault)
      | Raise e => ([], Some e)
      end
  end.

(** The session a turn runs in: looked up, created when absent. *)
Definition resolve_session (session_id : string) : M runner string :=
  session <- get_session session_id ;;
  match session with
  | Some s => ret s
  | None => create_session session_id
  end.

(** A turn that ends the way [result] says. *)
Definition lift {A : Type} (r : result A) : M runner A :=
  match r with
  | Return a => ret a
  | Raise e => raise e
  end.

End Adk.

Import Adk.

(** ** [agents/python/agents/sde_agent/agent.py] *)
Module SdeAgent.

(** The module-level sets. *)
Record globals : Type := Globals {
  request_ids : gset string;
  task_ids : gset string
}.

Definition module_init : globals := Globals ∅ ∅.

(** [generate_code(task_details)]; [randint] is what
    [random.randint(1000000, 9999999)] returned. This is the tool on details
    whose entries the interpreter prints; the tool with the faults of
    printing is [Limited.generate_code] below, and the two are the same
    wherever the entries print. *)
Definition generate_code (task_details : loc) (randint : Z) : M globals record :=
  let task_id := "task_id_" +:+ str_int randint in
  g <- read_globals ;;
  write_globals (Globals (request_ids g) ({[task_id]} ∪ task_ids g)) ;;;
  setitem task_details "task_id" (DStr task_id) ;;;
  d <- deref task_details ;;
  let generated_code :=
    "# Auto-generated code for task " +:+ task_id +:+ nl +:+
    "# Language: " +:+ str (dict_get "language" (DStr "N/A") d) +:+ nl +:+
    "# Requirements: " +:+ str (dict_get "requirements" (DStr "N/A") d) +:+ nl +:+
    "# Constraints: " +:+ str (dict_get "constraints" (DStr "N/A") d) +:+ nl +:+ nl +:+
    "def solution_function():" +:+ nl +:+
    "    # TODO: Implement the solution here" +:+ nl +:+
    "    pass" +:+ nl in
  ret [("task_id", Data (DStr task_id));
       ("code", Data (DStr generated_code));
       ("task_details", Ref task_details)].

(** [run_tests(task_id, code)] *)
Definition run_tests (task_id code : string) : M globals record :=
  g <- read_globals ;;
  if bool_decide (task_id ∉ task_ids g) then
    ret [("task_id", Data (DStr task_id));
         ("status", Data (DStr "Error: Invalid task_id."))]
  else
    let test_results := "All tests passed." in
    ret [("task_id", Data (DStr task_id));
         ("status", Data (DStr test_results))].

(** [return_solution(task_details, code_info, test_results)] *)
Definition return_solution (task_details code_info test_results : loc)
  : M globals record :=
  ci <- deref code_info ;;
  tr <- deref test_results ;;
  ret [("task_id", Data (dict_get "task_id" (DStr "") ci));
       ("code", Data (dict_get "code" (DStr "") ci));
       ("test_status", Data (dict_get "status" (DStr "") tr));
       ("task_details", Ref task_details)].

(** [generate_code] with the limits of the interpreter on what it prints
    ([lim]): a print that the interpreter refuses raises its fault, after the
    identifier was added to the set and stamped into the details. *)
Module Limited.

Definition generate_code (lim : limits) (task_details : loc) (randint : Z)
  : M globals record :=
  number <- lift_result (str_int_limited lim randint) ;;
  let task_id := "task_id_" +:+ number in
  g <- read_globals ;;
  write_globals (Globals (request_ids g) ({[task_id]} ∪ task_ids g)) ;;;
  setitem task_details "task_id" (DStr task_id) ;;;
  d <- deref task_details ;;
  language <- lift_result (str_limited lim (dict_get "language" (DStr "N/A") d)) ;;
  requirements <- lift_result (str_limited lim (dict_get "requirements" (DStr "N/A") d)) ;;
  constraints <- lift_result (str_limited lim (dict_get "constraints" (DStr "N/A") d)) ;;
  let generated_code :=
    "# Auto-generated code for task " +:+ task_id +:+ nl +:+
    "# Language: " +:+ language +:+ nl +:+
    "# Requirements: " +:+ requirements +:+ nl +:+
    "# Constraints: " +:+ constraints +:+ nl +:+ nl +:+
    "def solution_function():" +:+ nl +:+
    "    # TODO: Implement the solution here" +:+ nl +:+
    "    pass" +:+ nl in
  ret [("task_id", Data (DStr task_id));
       ("code", Data (DStr generated_code));
       ("task_details", Ref task_details)].

End Limited.

(** A tool call of a turn, its dict arguments as decoded from the request. *)
Inductive call : Type :=
| GenerateCode (task_details : dict) (randint : Z)
| RunTests (task_id code : string)
| ReturnSolution (task_details code_info test_results : dict).

(** The runner performs a call: each dict argument is a new dict object. *)
Definition perform (c : call) : M globals record :=
  match c with
  | GenerateCode task_details randint =>
      l <- alloc task_details ;;
      generate_code l randint
  | RunTests task_id code => run_tests task_id code
  | ReturnSolution task_details code_info test_results =>
      l1 <- alloc task_details ;;
      l2 <- alloc code_info ;;
      l3 <- alloc test_results ;;
      return_solution l1 l2 l3
  end.

(** The identifier a call issued, read off what the call returned. *)
Definition issued_by (c : call) (out : result record) : option string :=
  match c, out with
  | GenerateCode _ _, Return r =>
      match dict_lookup "task_id" r with
      | Some (Data (DStr id)) => Some id
      | _ => None
      end
  | _, _ => None
  end.

(** The calls of a run, one after the other: the log and the final state. *)
Fixpoint run_calls (cs : list call) (w : world globals)
  : list (call * result record) * world globals :=
  match cs with
  | [] => ([], w)
  | c :: cs' =>
      let '(out, w1) := perform c w in
      let '(log, w2) := run_calls cs' w1 in
      ((c, out) :: log, w2)
  end.

Definition issued (log : list (call * result record)) : list string :=
  omap (fun e => issued_by e.1 e.2) log.

(** The process right after the module is loaded. *)
Definition start : world globals := World module_init [].

(** Class [SDEAgent]. *)
Module SDEAgent.

Definition invoke (query session_id : string) (produced : list event)
  : M runner string :=
  session <- resolve_session session_id ;;
  events <- run session query produced ;;
  lift (final_text events).

Definition stream (query session_id : string) (produced : list event)
  : M runner (list dict * option exn) :=
  session <- resolve_session session_id ;;
  events <- run session query produced ;;
  ret (stream_events "Processing the SDE request..." (items events)).

End SDEAgent.

End SdeAgent.

(** ** [agents/implementation/agent_builder/agent.py] *)
Module AgentBuilder.

(** The module-level sets. *)
Record globals : Type := Globals {
  task_ids : gset string;
  qa_task_ids : gset string
}.

Definition module_init : globals := Globals ∅ ∅.

(** [generate_tests(qa_details)]; [randint] is what
    [random.randint(1000000, 9999999)] returned. This is the tool on details
    whose entries the interpreter prints; the tool with the faults of
    printing is [Limited.generate_tests] below. *)
Definition generate_tests (qa_details : loc) (randint : Z) : M globals record :=
  let qa_task_id := "qa_task_id_" +:+ str_int randint in
  g <- read_globals ;;
  write_globals (Globals (task_ids g) ({[qa_task_id]} ∪ qa_task_ids g)) ;;;
  setitem qa_details "qa_task_id" (DStr qa_task_id) ;;;
  d <- deref qa_details ;;
  let generated_tests :=
    "# Auto-generated test cases for QA task " +:+ qa_task_id +:+ nl +:+
    "# Feature: " +:+ str (dict_get "feature" (DStr "N/A") d) +:+ nl +:+
    "# Test Requirements: " +:+ str (dict_get "test_requirements" (DStr "N/A") d) +:+ nl +:+
    "# Constraints: " +:+ str (dict_get "constraints" (DStr "N/A") d) +:+ nl +:+ nl +:+
    "def test_feature():" +:+ nl +:+
    "    # TODO: Implement the actual test logic here" +:+ nl +:+
    "    assert True" +:+ nl in
  ret [("qa_task_id", Data (DStr qa_task_id));
       ("tests", Data (DStr generated_tests));
       ("qa_details", Ref qa_details)].

(** The first [def run_tests] of the file (line 53); the name is bound
    again at line 102. *)
Module Line53.

Definition run_tests (qa_task_id tests : string) : M globals record :=
  g <- read_globals ;;
  if bool_decide (qa_task_id ∉ qa_task_ids g) then
    ret [("qa_task_id", Data (DStr qa_task_id));
         ("status", Data (DStr "Error: Invalid qa_task_id."))]
  else
    let test_results := "All tests passed." in
    ret [("qa_task_id", Data (DStr qa_task_id));
         ("status", Data (DStr test_results))].

End Line53.

(** [return_feedback(qa_details, tests_info, feedback_instructions)], on a
    status the interpreter prints and details the JSON encoder encodes; the
    tool with the faults of both is [Limited.return_feedback] below. *)
Definition return_feedback (qa_details tests_info : loc)
    (feedback_instructions : option string) : M globals record :=
  qd <- deref qa_details ;;
  ti <- deref tests_info ;;
  let feedback :=
    "Test execution status: " +:+
      str (dict_get "status" (DStr "No status provided") ti) +:+ ". " +:+
    "QA Details: " +:+ json_dumps (DDict qd) +:+ ". " +:+
    (if truthy_text feedback_instructions
     then "Additional feedback: " +:+ default "" feedback_instructions
     else "") in
  ret [("qa_task_id", Data (dict_get "qa_task_id" (DStr "") qd));
       ("feedback", Data (DStr feedback))].

(** The second [def run_tests] of the file (line 102). *)
Definition run_tests (task_id code : string) : M globals record :=
  g <- read_globals ;;
  if bool_decide (task_id ∉ task_ids g) then
    ret [("task_id", Data (DStr task_id));
         ("status", Data (DStr "Error: Invalid task_id."))]
  else
    let test_results := "All tests passed." in
    ret [("task_id", Data (DStr task_id));
         ("status", Data (DStr test_results))].

(** [return_solution(task_details, code_info, test_results)] *)
Definition return_solution (task_details code_info test_results : loc)
  : M globals record :=
  ci <- deref code_info ;;
  tr <- deref test_results ;;
  ret [("task_id", Data (dict_get "task_id" (DStr "") ci));
       ("code", Data (dict_get "code" (DStr "") ci));
       ("test_status", Data (dict_get "status" (DStr "") tr));
       ("task_details", Ref task_details)].

(** The functions of the module, by the shape of their arguments. *)
Inductive pyfun : Type :=
| Generate (f : loc -> Z -> M globals record)
| Run (f : string -> string -> M globals record)
| Feedback (f : loc -> loc -> option string -> M globals record)
| Solution (f : loc -> loc -> loc -> M globals record).

(** The [def] statements of the file, in the order they are executed. *)
Definition module_body : list (string * pyfun) :=
  [("generate_tests", Generate generate_tests);
   ("run_tests", Run Line53.run_tests);
   ("return_feedback", Feedback return_feedback);
   ("run_tests", Run run_tests);
   ("return_solution", Solution return_solution)].

(** The names of the module once it is loaded: each [def] binds its name,
    a later one replacing an earlier one. *)
Definition namespace : list (string * pyfun) :=
  fold_left (fun ns def => dict_set def.1 def.2 ns) module_body [].

(** A call of the name [run_tests] of the loaded module. *)
Definition call_run_tests (id artifact : string) : M globals record :=
  match dict_lookup "run_tests" namespace with
  | Some (Run f) => f id artifact
  | _ => raise (NameError "name 'run_tests' is not defined")
  end.

(** [generate_tests] and [return_feedback] with the limits of the
    interpreter on what they print ([lim]): a print that the interpreter
    refuses raises its fault. *)
Module Limited.

Definition generate_tests (lim : limits) (qa_details : loc) (randint : Z)
  : M globals record :=
  number <- lift_result (str_int_limited lim randint) ;;
  let qa_task_id := "qa_task_id_" +:+ number in
  g <- read_globals ;;
  write_globals (Globals (task_ids g) ({[qa_task_id]} ∪ qa_task_ids g)) ;;;
  setitem qa_details "qa_task_id" (DStr qa_task_id) ;;;
  d <- deref qa_details ;;
  feature <- lift_result (str_limited lim (dict_get "feature" (DStr "N/A") d)) ;;
  test_requirements <-
    lift_result (str_limited lim (dict_get "test_requirements" (DStr "N/A") d)) ;;
  constraints <- lift_result (str_limited lim (dict_get "constraints" (DStr "N/A") d)) ;;
  let generated_tests :=
    "# Auto-generated test cases for QA task " +:+ qa_task_id +:+ nl +:+
    "# Feature: " +:+ feature +:+ nl +:+
    "# Test Requirements: " +:+ test_requirements +:+ nl +:+
    "# Constraints: " +:+ constraints +:+ nl +:+ nl +:+
    "def test_feature():" +:+ nl +:+
    "    # TODO: Implement the actual test logic here" +:+ nl +:+
    "    assert True" +:+ nl in
  ret [("qa_task_id", Data (DStr qa_task_id));
       ("tests", Data (DStr generated_tests));
       ("qa_details", Ref qa_details)].

Definition return_feedback (lim : limits) (qa_details tests_info : loc)
    (feedback_instructions : option string) : M globals record :=
  qd <- deref qa_details ;;
  ti <- deref tests_info ;;
  status <- lift_result (str_limited lim (dict_get "status" (DStr "No status provided") ti)) ;;
  details <- lift_result (json_dumps_limited lim (json_depth lim) (DDict qd)) ;;
  let feedback :=
    "Test execution status: " +:+ status +:+ ". " +:+
    "QA Details: " +:+ details +:+ ". " +:+
    (if truthy_text feedback_instructions
     then "Additional feedback: " +:+ default "" feedback_instructions
     else "") in
  ret [("qa_task_id", Data (dict_get "qa_task_id" (DStr "") qd));
       ("feedback", Data (DStr feedback))].

End Limited.

(** A tool call of a turn, its dict arguments as decoded from the request;
    a name is looked up in the loaded module. *)
Inductive call : Type :=
| GenerateTests (qa_details : dict) (randint : Z)
| RunTests (id artifact : string)
| ReturnFeedback (qa_details tests_info : dict) (feedback_instructions : option string)
| ReturnSolution (task_details code_info test_results : dict).

(** The runner performs a call: each dict argument is a new dict object. *)
Definition perform (c : call) : M globals record :=
  match c with
  | GenerateTests qa_details randint =>
      l <- alloc qa_details ;;
      generate_tests l randint
  | RunTests id artifact => call_run_tests id artifact
  | ReturnFeedback qa_details tests_info feedback_instructions =>
      l1 <- alloc qa_details ;;
      l2 <- alloc tests_info ;;
      return_feedback l1 l2 feedback_instructions
  | ReturnSolution task_details code_info test_results =>
      l1 <- alloc task_details ;;
      l2 <- alloc code_info ;;
      l3 <- alloc test_results ;;
      return_solution l1 l2 l3
  end.

(** The identifier a call issued, read off what the call returned. *)
Definition issued_by (c : call) (out : result record) : option string :=
  match c, out with
  | GenerateTests _ _, Return r =>
      match dict_lookup "qa_task_id" r with
      | Some (Data (DStr id)) => Some id
      | _ => None
      end
  | _, _ => None
  end.

(** The calls of a run, one after the other: the log and the final state. *)
Fixpoint run_calls (cs : list call) (w : world globals)
  : list (call * result record) * world globals :=
  match cs with
  | [] => ([], w)
  | c :: cs' =>
      let '(out, w1) := perform c w in
      let '(log, w2) := run_calls cs' w1 in
      ((c, out) :: log, w2)
  end.

Definition issued (log : list (call * result record)) : list string :=
  omap (fun e => issued_by e.1 e.2) log.

(** The process right after the module is loaded. *)
Definition start : world globals := World module_init [].

(** Class [AgentBuilderTemplate]. *)
Module AgentBuilderTemplate.

Definition invoke (query session_id : string) (produced : list event)
  : M runner string :=
  session <- resolve_session session_id ;;
  it <- run session query produced ;;
  let events := list_of it in
  lift (final_text events).

Definition stream (query session_id : string) (produced : list event)
  : M runner (list dict * option exn) :=
  session <- resolve_session session_id ;;
  events <- run session query produced ;;
  ret (stream_events "Processing the QA request..." (items events)).

End AgentBuilderTemplate.

End AgentBuilder.

(** ** [agents/implementation/coordinator_agent/agent.py] *)
Module CoordinatorAgent.

Definition invoke (query session_id : string) (produced : list event)
  : M runner string :=
  session <- resolve_session session_id ;;
  it <- run session query produced ;;
  let events := list_of it in
  lift (final_text events).

Definition stream (query session_id : string) (produced : list event)
  : M runner (list dict * option exn) :=
  session <- resolve_session session_id ;;
  events <- run session query produced ;;
  ret (stream_events "Processing the SDE request..." (items events)).

End CoordinatorAgent.

(** ** Process start: the [__main__] files and [agent_builder/builder.py] *)
Module Process.

(** The exception classes the handlers of the start code tell apart; all
    are subclasses of [Exception]. *)
Inductive exc_class : Type :=
| MissingAPIKeyError
| AttributeErr
| OtherException.

(** An exception: its class and the text [str(e)] gives. *)
Record exc : Type := Exc { cls : exc_class; message : string }.

(** The server a process builds: the name, url, version and skill ids of
    its agent card (descriptions, tags and examples are left out), where it
    listens, and whether the CORS middleware was added. *)
Record server : Type := Server {
  card_name : string;
  card_url : string;
  card_version : string;
  card_skills : list string;
  listen_host : string;
  listen_port : Z;
  cors : bool
}.

(** What a process does that shows outside: a line of [logger.error], a
    server that [server.start()] put to listen. *)
Inductive effect : Type :=
| LogError (msg : string)
| Started (s : server).

(** How a piece of start code ends: it completes, an exception leaves it,
    or [exit(status)] ends the process ([SystemExit] is no [Exception]: no
    handler of the start code catches it). *)
Inductive outcome (A : Type) : Type :=
| Done (a : A)
| Raised (e : exc)
| Exited (status : Z).
Arguments Done {A} a.
Arguments Raised {A} e.
Arguments Exited {A} status.

(** Start code: the effects in order, and the outcome. *)
Definition P (A : Type) : Type := list effect * outcome A.

Definition pure {A : Type} (a : A) : P A := ([], Done a).

Definition seq {A B : Type} (m : P A) (k : A -> P B) : P B :=
  match m with
  | (effs, Done a) => let '(effs', o) := k a in (effs ++ effs', o)
  | (effs, Raised e) => (effs, Raised e)
  | (effs, Exited n) => (effs, Exited n)
  end.

Definition throw {A : Type} (e : exc) : P A := ([], Raised e).
Definition exit {A : Type} (status : Z) : P A := ([], Exited status).
Definition log_error (msg : string) : P unit := ([LogError msg], Done tt).

(** [try: body except ...: handler]: every exception of the body goes to
    the handler (the handlers of the start code end with [except Exception]). *)
Definition try_except {A : Type} (body : P A) (handler : exc -> P A) : P A :=
  match body with
  | (effs, Raised e) => let '(effs', o) := handler e in (effs ++ effs', o)
  | done => done
  end.

(** A call into a library: it completes, or raises what [fails] says. *)
Definition library_call (fails : option exc) : P unit :=
  match fails with
  | Some e => throw e
  | None => pure tt
  end.

(** The libraries of a start ([common], [task_manager], the agent classes,
    [google.adk]), by the statement that calls them: each statement completes
    or raises an [Exception], the one given here. *)
Record library : Type := Library {
  capabilities_fails : option exc;
  skill_fails : option exc;
  agent_card_fails : option exc;
  llm_agent_fails : option exc;
  server_fails : option exc;
  add_middleware_fails : option exc;
  start_fails : option exc
}.

(** [os.getenv(key)], after [load_dotenv()]. *)
Definition getenv (env : gmap string string) (key : string) : option string :=
  env !! key.

(** [f"http://{host}:{port}/"] *)
Definition card_url_of (host : string) (port : Z) : string :=
  "http://" +:+ host +:+ ":" +:+ str_int port +:+ "/".

(** The two handlers of the start code. *)
Definition on_missing_key {A : Type} (e : exc) : P A :=
  seq (log_error ("Error: " +:+ message e)) (fun _ => exit 1).

Definition on_exception {A : Type} (e : exc) : P A :=
  seq (log_error ("An error occurred during server startup: " +:+ message e))
      (fun _ => exit 1).

Definition handlers {A : Type} (e : exc) : P A :=
  match cls e with
  | MissingAPIKeyError => on_missing_key e
  | _ => on_exception e
  end.

(** The check of the credential at the head of every [try]. *)
Definition require_api_key (env : gmap string string) : P unit :=
  if negb (truthy_text (getenv env "GOOGLE_API_KEY")) then
    throw (Exc MissingAPIKeyError "GOOGLE_API_KEY environment variable not set.")
  else pure tt.

(** [server.start()] *)
Definition start (lib : library) (s : server) : P unit :=
  seq (library_call (start_fails lib)) (fun _ => ([Started s], Done tt)).

End Process.

Import Process.

Declare Scope process_scope.
Delimit Scope process_scope with process.
Notation "x <~ m ;; k" := (seq m (fun x => k))
  (at level 100, m at next level, right associativity) : process_scope.
Notation "m ~~> k" := (seq m (fun _ => k))
  (at level 100, right associativity) : process_scope.
Local Open Scope process_scope.

(** [agents/implementation/sde_agent/__main__.py] *)
Module SdeMain.

Definition main (env : gmap string string) (lib : library) (host : string) (port : Z)
  : P unit :=
  try_except
    (require_api_key env ~~>
     library_call (capabilities_fails lib) ~~>
     library_call (skill_fails lib) ~~>
     library_call (agent_card_fails lib) ~~>
     library_call (server_fails lib) ~~>
     library_call (add_middleware_fails lib) ~~>
     start lib (Server "SDE Agent" (card_url_of host port) "1.0.0"
                  ["website_generation"] host port true))
    handlers.

End SdeMain.

(** [agents/implementation/qa_agent/__main__.py] *)
Module QaMain.

Definition main (env : gmap string string) (lib : library) (host : string) (port : Z)
  : P unit :=
  try_except
    (require_api_key env ~~>
     library_call (capabilities_fails lib) ~~>
     library_call (skill_fails lib) ~~>
     library_call (agent_card_fails lib) ~~>
     library_call (server_fails lib) ~~>
     library_call (add_middleware_fails lib) ~~>
     start lib (Server "QA Agent" (card_url_of host port) "1.0.0"
                  ["qa_assistance"] host port true))
    handlers.

End QaMain.

(** [agents/implementation/coordinator_agent/__main__.py] *)
Module CoordinatorMain.

Definition main (env : gmap string string) (lib : library) (host : string) (port : Z)
  : P unit :=
  try_except
    (require_api_key env ~~>
     library_call (capabilities_fails lib) ~~>
     library_call (agent_card_fails lib) ~~>
     library_call (server_fails lib) ~~>
     library_call (add_middleware_fails lib) ~~>
     start lib (Server "CoordinatorAgent" (card_url_of host port) "1.0.0"
                  [] host port true))
    handlers.

End CoordinatorMain.

(** [agents/python/agents/sde_agent/__main__.py] *)
Module PythonSdeMain.

Definition main (env : gmap string string) (lib : library) (host : string) (port : Z)
  : P unit :=
  try_except
    (require_api_key env ~~>
     library_call (capabilities_fails lib) ~~>
     library_call (skill_fails lib) ~~>
     library_call (agent_card_fails lib) ~~>
     library_call (server_fails lib) ~~>
     start lib (Server "SDE Agent" (card_url_of host port) "1.0.0"
                  ["sde_assistance"] host port false))
    handlers.

End PythonSdeMain.

(** [agents/implementation/agent_builder/builder.py] *)
Module Builder.

(** An [AgentBuilder] object: an attribute is [None] here until it is
    assigned (the class body only annotates them). The agent is held by
    its name, the skills by their ids. *)
Record agent_builder : Type := MkAgentBuilder {
  _host : option string;
  _port : option Z;
  _llm_agent : option string;
  _skills : option (list string)
}.

(** [self.attr] *)
Definition getattr {A : Type} (name : string) (field : option A) : P A :=
  match field with
  | Some a => pure a
  | None =>
      throw (Exc AttributeErr
               ("'AgentBuilder' object has no attribute '" +:+ name +:+ "'"))
  end.

(** [AgentBuilder(host, port)] *)
Definition init (env : gmap string string) (host : string) (port : Z)
  : P agent_builder :=
  try_except
    (require_api_key env ~~>
     pure (MkAgentBuilder (Some host) (Some port) None None))
    handlers.

Definition set_llm_agent (self : agent_builder) (llm_agent : string) : agent_builder :=
  MkAgentBuilder (_host self) (_port self) (Some llm_agent) (_skills self).

Definition set_skills (self : agent_builder) (skills : list string) : agent_builder :=
  MkAgentBuilder (_host self) (_port self) (_llm_agent self) (Some skills).

(** [build(name, description)] *)
Definition build (lib : library) (self : agent_builder) (name description : string)
  : P server :=
  try_except
    (library_call (capabilities_fails lib) ~~>
     host <~ getattr "_host" (_host self) ;;
     port <~ getattr "_port" (_port self) ;;
     skills <~ getattr "_skills" (_skills self) ;;
     library_call (agent_card_fails lib) ~~>
     llm_agent <~ getattr "_llm_agent" (_llm_agent self) ;;
     library_call (server_fails lib) ~~>
     library_call (add_middleware_fails lib) ~~>
     pure (Server name (card_url_of host port) "1.0.0" skills host port true))
    on_exception.

(** [main(host, port)] *)
Definition main (env : gmap string string) (lib : library) (host : string) (port : Z)
  : P unit :=
  builder <~ init env host port ;;
  library_call (llm_agent_fails lib) ~~>
  let builder := set_llm_agent builder "qa_agent" in
  library_call (skill_fails lib) ~~>
  let builder := set_skills builder ["qa_assistance"] in
  server <~ build lib builder "QA Agent"
    ("This agent made by GitVerse helps with quality assurance tasks. " +:+
     "It generates test cases, runs tests, and delivers feedback for software features.") ;;
  start lib server.

End Builder.

(** * The vocabulary of the properties *)

(** The identifier [generate_code], resp. [generate_tests], builds from a
    draw. *)
Definition task_id_of (randint : Z) : string := "task_id_" +:+ str_int randint.
Definition qa_task_id_of (randint : Z) : string := "qa_task_id_" +:+ str_int randint.

(** The artifact texts of [generate_code] and [generate_tests], for an
    identifier and the three entries they print. *)
Definition code_text (task_id : string) (language requirements constraints : data) : string :=
  "# Auto-generated code for task " +:+ task_id +:+ nl +:+
  "# Language: " +:+ str language +:+ nl +:+
  "# Requirements: " +:+ str requirements +:+ nl +:+
  "# Constraints: " +:+ str constraints +:+ nl +:+ nl +:+
  "def solution_function():" +:+ nl +:+
  "    # TODO: Implement the solution here" +:+ nl +:+
  "    pass" +:+ nl.

Definition tests_text (qa_task_id : string) (feature test_requirements constraints : data)
  : string :=
  "# Auto-generated test cases for QA task " +:+ qa_task_id +:+ nl +:+
  "# Feature: " +:+ str feature +:+ nl +:+
  "# Test Requirements: " +:+ str test_requirements +:+ nl +:+
  "# Constraints: " +:+ str constraints +:+ nl +:+ nl +:+
  "def test_feature():" +:+ nl +:+
  "    # TODO: Implement the actual test logic here" +:+ nl +:+
  "    assert True" +:+ nl.

(** What an entry of a details map prints as: its value, or N/A. *)
Definition entry_or_na (k : string) (d : dict) : data :=
  default (DStr "N/A") (dict_lookup k d).

(** The records the run steps return for an identifier they do not find,
    and for one they find. *)
Definition invalid_task_id (id : string) : record :=
  [("task_id", Data (DStr id)); ("status", Data (DStr "Error: Invalid task_id."))].

Definition invalid_qa_task_id (id : string) : record :=
  [("qa_task_id", Data (DStr id)); ("status", Data (DStr "Error: Invalid qa_task_id."))].

Definition passed (key id : string) : record :=
  [(key, Data (DStr id)); ("status", Data (DStr "All tests passed."))].

(** The status of an outcome tells of an invalid identifier. *)
Definition invalid_status (out : result record) : bool :=
  match out with
  | Return r =>
      match dict_lookup "status" r with
      | Some (Data (DStr s)) => String.prefix "Error: Invalid" s
      | _ => false
      end
  | Raise _ => false
  end.

(** The keys the docstrings of [generate_code] and [generate_tests] list. *)
Definition sde_required_keys : list string := ["language"; "requirements"; "constraints"].
Definition qa_required_keys : list string := ["feature"; "test_requirements"; "constraints"].

(** A details map is malformed when a required key is missing. *)
Definition malformed (required : list string) (d : dict) : bool :=
  existsb (fun k => negb (has_key k d)) required.

(** A record that describes a problem: it has an [error] entry, or a status
    that starts with [Error], the way the run steps report one. *)
Definition error_record (r : record) : bool :=
  has_key "error" r ||
  match dict_lookup "status" r with
  | Some (Data (DStr s)) => String.prefix "Error" s
  | _ => false
  end.

(** An outcome that is a failure reported as a value. *)
Definition structured_error (out : result record) : bool :=
  match out with
  | Return r => error_record r
  | Raise _ => false
  end.


(** The flag of an item of a stream. *)
Definition is_task_complete (item : dict) : bool :=
  match dict_lookup "is_task_complete" item with
  | Some (DBool b) => b
  | _ => false
  end.

(** Flags that read: false any number of times, then true once, then
    nothing. *)
Fixpoint star_then_one (flags : list bool) : bool :=
  match flags with
  | [] => false
  | [b] => b
  | b :: rest => negb b && star_then_one rest
  end.

(** The items of a stream have the shape the spec asks for. *)
Definition streaming_shape (items : list dict) : bool :=
  star_then_one (map is_task_complete items).

(** The events on which the loop of [stream] raises: a final response whose
    first part has neither a text nor a function response while another
    part has a function response. *)
Definition faulty (ev : event) : bool :=
  is_final_response ev &&
  match parts_of (event_content ev) with
  | p0 :: ps =>
      negb (truthy_text (text p0)) &&
      negb (bool_decide (is_Some (function_response p0))) &&
      existsb (fun p => bool_decide (is_Some (function_response p))) ps
  | [] => false
  end.

(** The texts of the parts of the last event of a run, joined by newlines;
    the empty text when there is no event, no content or no part. This is
    the text of the final response when the run ends with it. *)
Definition last_event_text (produced : list event) : string :=
  match last produced with
  | None => ""
  | Some ev => join nl (texts (parts_of (event_content ev)))
  end.

(** The draws of the generation calls of a run, in order. *)
Definition sde_draws (cs : list SdeAgent.call) : list Z :=
  omap (fun c => match c with SdeAgent.GenerateCode _ r => Some r | _ => None end) cs.

Definition qa_draws (qs : list AgentBuilder.call) : list Z :=
  omap (fun c => match c with AgentBuilder.GenerateTests _ r => Some r | _ => None end) qs.

(** What a tool result reads as when it is handed on as plain data: a
    reference gives the content its object has at that time. *)
Definition snapshot (h : heap) (r : record) : dict :=
  map (fun kv => (kv.1, match kv.2 with
                        | Data d => d
                        | Ref l => DDict (default [] (h !! l))
                        end)) r.

Definition handed_on (h : heap) (out : result record) : dict :=
  match out with
  | Return r => snapshot h r
  | Raise _ => []
  end.

(** The dict a piece of data is, the empty one when it is none. *)
Definition as_dict (v : data) : dict :=
  match v with
  | DDict d => d
  | _ => []
  end.

(** An event with what [stream] does not look at blanked: an event that
    is not a final response keeps nothing. *)
Definition mask (ev : event) : event :=
  if is_final_response ev then ev else Event None false.

(** A part that carries a function response. *)
Definition has_function_response (p : part) : bool :=
  bool_decide (is_Some (function_response p)).

(** The outcome of a start is an exit with status 1 after one line of
    [logger.error]. *)
Definition refused {A : Type} (p : P A) : Prop :=
  exists msg, p = ([LogError msg], Exited 1).

(** No statement of the library raises. *)
Definition library_works (lib : library) : Prop :=
  capabilities_fails lib = None /\ skill_fails lib = None /\
  agent_card_fails lib = None /\ llm_agent_fails lib = None /\
  server_fails lib = None /\ add_middleware_fails lib = None /\
  start_fails lib = None.

(** The limits of an interpreter as it starts: 4300 digits, and the
    recursion limit of 1000 as the depth. *)
Definition interpreter_defaults : limits := Limits 4300 1000 1000.

(** The limits [sys.set_int_max_str_digits] accepts: 0 or at least 640. *)
Definition digits_limit_allowed (lim : limits) : Prop :=
  max_str_digits lim = 0 \/ 640 <= max_str_digits lim.

(** The faults of printing: the limit on digits, or the limit on nesting. *)
Definition print_fault (lim : limits) (e : exn) : Prop :=
  e = digits_error lim
  \/ e = RecursionError "maximum recursion depth exceeded while getting the repr of an object".

Definition encode_fault (lim : limits) (e : exn) : Prop :=
  e = digits_error lim
  \/ e = RecursionError "maximum recursion depth exceeded while encoding a JSON object".

(** Three entries of a details map as they print, a missing one as N/A,
    in order and up to the first fault. *)
Definition printed_entries (lim : limits) (k1 k2 k3 : string) (d : dict)
  : result (string * string * string) :=
  match str_limited lim (entry_or_na k1 d) with
  | Raise e => Raise e
  | Return a =>
      match str_limited lim (entry_or_na k2 d) with
      | Raise e => Raise e
      | Return b =>
          match str_limited lim (entry_or_na k3 d) with
          | Raise e => Raise e
          | Return c => Return (a, b, c)
          end
      end
  end.

(** The artifact texts, for an identifier and the three printed entries. *)
Definition code_of_texts (task_id language requirements constraints : string) : string :=
  "# Auto-generated code for task " +:+ task_id +:+ nl +:+
  "# Language: " +:+ language +:+ nl +:+
  "# Requirements: " +:+ requirements +:+ nl +:+
  "# Constraints: " +:+ constraints +:+ nl +:+ nl +:+
  "def solution_function():" +:+ nl +:+
  "    # TODO: Implement the solution here" +:+ nl +:+
  "    pass" +:+ nl.

Definition tests_of_texts (qa_task_id feature test_requirements constraints : string)
  : string :=
  "# Auto-generated test cases for QA task " +:+ qa_task_id +:+ nl +:+
  "# Feature: " +:+ feature +:+ nl +:+
  "# Test Requirements: " +:+ test_requirements +:+ nl +:+
  "# Constraints: " +:+ constraints +:+ nl +:+ nl +:+
  "def test_feature():" +:+ nl +:+
  "    # TODO: Implement the actual test logic here" +:+ nl +:+
  "    assert True" +:+ nl.

(** The feedback text, for the printed status and the JSON text of the
    details. *)
Definition feedback_of_texts (status details : string)
    (feedback_instructions : option string) : string :=
  "Test execution status: " +:+ status +:+ ". " +:+
  "QA Details: " +:+ details +:+ ". " +:+
  (if truthy_text feedback_instructions
   then "Additional feedback: " +:+ default "" feedback_instructions
   else "").

(** * Properties *)

(** ** Dict objects *)


Lemma dict_lookup_set_ne {A : Type} (k k' : string) (v : A) (d : list (string * A)) :
  k <> k' -> dict_lookup k' (dict_set k v d) = dict_lookup k' d.
Proof.
  intros Hne. induction d as [|[k0 v0] d IH]; simpl.
  - destruct (String.eqb_spec k' k); congruence.
  - destruct (String.eqb_spec k k0) as [->|Hk]; simpl.
    + destruct (String.eqb_spec k' k0); congruence.
    + destruct (String.eqb_spec k' k0); congruence.
Qed.

(** ** What [generate_code] and [generate_tests] do *)

Lemma generate_code_spec (w : world SdeAgent.globals) (l : loc) (d : dict) (randint : Z) :
  objects w !! l = Some d ->
  exists code,
    SdeAgent.generate_code l randint w =
      (Return [("task_id", Data (DStr (task_id_of randint)));
               ("code", Data (DStr code));
               ("task_details", Ref l)],
       World (SdeAgent.Globals (SdeAgent.request_ids (globals w))
                ({[task_id_of randint]} ∪ SdeAgent.task_ids (globals w)))
             (<[l := dict_set "task_id" (DStr (task_id_of randint)) d]> (objects w))).
Proof.
  intros Hl. unfold SdeAgent.generate_code, bind, read_globals, write_globals, setitem, deref, ret.
  cbn [objects globals]. rewrite Hl. cbn [objects globals].
  rewrite list_lookup_insert_eq by (eapply lookup_lt_Some; eauto).
  eexists. reflexivity.
Qed.

Lemma generate_tests_spec (w : world AgentBuilder.globals) (l : loc) (d : dict) (randint : Z) :
  objects w !! l = Some d ->
  exists tests,
    AgentBuilder.generate_tests l randint w =
      (Return [("qa_task_id", Data (DStr (qa_task_id_of randint)));
               ("tests", Data (DStr tests));
               ("qa_details", Ref l)],
       World (AgentBuilder.Globals (AgentBuilder.task_ids (globals w))
                ({[qa_task_id_of randint]} ∪ AgentBuilder.qa_task_ids (globals w)))
             (<[l := dict_set "qa_task_id" (DStr (qa_task_id_of randint)) d]> (objects w))).
Proof.
  intros Hl. unfold AgentBuilder.generate_tests, bind, read_globals, write_globals, setitem, deref, ret.
  cbn [objects globals]. rewrite Hl. cbn [objects globals].
  rewrite list_lookup_insert_eq by (eapply lookup_lt_Some; eauto).
  eexists. reflexivity.
Qed.

(** The record [generate_code] returns: a key that is missing from the
    details prints as N/A. *)
Lemma generate_code_returns (w : world SdeAgent.globals) (l : loc) (d : dict) (randint : Z) :
  objects w !! l = Some d ->
  (SdeAgent.generate_code l randint w).1 =
    Return [("task_id", Data (DStr (task_id_of randint)));
            ("code", Data (DStr (code_text (task_id_of randint)
               (entry_or_na "language" d) (entry_or_na "requirements" d)
               (entry_or_na "constraints" d))));
            ("task_details", Ref l)].
Proof.
  intros Hl. unfold SdeAgent.generate_code, bind, read_globals, write_globals, setitem, deref, ret.
  cbn [objects globals]. rewrite Hl. cbn [objects globals].
  rewrite list_lookup_insert_eq by (eapply lookup_lt_Some; eauto).
  cbn [fst]. unfold dict_get, entry_or_na, code_text, task_id_of.
  by rewrite !dict_lookup_set_ne by done.
Qed.

Lemma generate_tests_returns (w : world AgentBuilder.globals) (l : loc) (d : dict) (randint : Z) :
  objects w !! l = Some d ->
  (AgentBuilder.generate_tests l randint w).1 =
    Return [("qa_task_id", Data (DStr (qa_task_id_of randint)));
            ("tests", Data (DStr (tests_text (qa_task_id_of randint)
               (entry_or_na "feature" d) (entry_or_na "test_requirements" d)
               (entry_or_na "constraints" d))));
            ("qa_details", Ref l)].
Proof.
  intros Hl. unfold AgentBuilder.generate_tests, bind, read_globals, write_globals, setitem, deref, ret.
  cbn [objects globals]. rewrite Hl. cbn [objects globals].
  rewrite list_lookup_insert_eq by (eapply lookup_lt_Some; eauto).
  cbn [fst]. unfold dict_get, entry_or_na, tests_text, qa_task_id_of.
  by rewrite !dict_lookup_set_ne by done.
Qed.

(** ** What the run steps return *)

Lemma sde_run_tests_unknown (w : world SdeAgent.globals) (id code : string) :
  id ∉ SdeAgent.task_ids (globals w) ->
  SdeAgent.run_tests id code w = (Return (invalid_task_id id), w).
Proof.
  intros H. unfold SdeAgent.run_tests, bind, read_globals, ret.
  by rewrite bool_decide_eq_true_2.
Qed.

Lemma sde_run_tests_known (w : world SdeAgent.globals) (id code : string) :
  id ∈ SdeAgent.task_ids (globals w) ->
  SdeAgent.run_tests id code w = (Return (passed "task_id" id), w).
Proof.
  intros H. unfold SdeAgent.run_tests, bind, read_globals, ret.
  rewrite bool_decide_eq_false_2; [done | by intros ?].
Qed.

Lemma qa_run_tests_unknown (w : world AgentBuilder.globals) (id code : string) :
  id ∉ AgentBuilder.task_ids (globals w) ->
  AgentBuilder.run_tests id code w = (Return (invalid_task_id id), w).
Proof.
  intros H. unfold AgentBuilder.run_tests, bind, read_globals, ret.
  by rewrite bool_decide_eq_true_2.
Qed.

Lemma line53_run_tests_unknown (w : world AgentBuilder.globals) (id tests : string) :
  id ∉ AgentBuilder.qa_task_ids (globals w) ->
  AgentBuilder.Line53.run_tests id tests w = (Return (invalid_qa_task_id id), w).
Proof.
  intros H. unfold AgentBuilder.Line53.run_tests, bind, read_globals, ret.
  by rewrite bool_decide_eq_true_2.
Qed.

Lemma line53_run_tests_known (w : world AgentBuilder.globals) (id tests : string) :
  id ∈ AgentBuilder.qa_task_ids (globals w) ->
  AgentBuilder.Line53.run_tests id tests w = (Return (passed "qa_task_id" id), w).
Proof.
  intros H. unfold AgentBuilder.Line53.run_tests, bind, read_globals, ret.
  rewrite bool_decide_eq_false_2; [done | by intros ?].
Qed.

(** The name [run_tests] of the loaded module is the function of line 102. *)
Lemma namespace_run_tests :
  dict_lookup "run_tests" AgentBuilder.namespace = Some (AgentBuilder.Run AgentBuilder.run_tests).
Proof. reflexivity. Qed.

Lemma call_run_tests_eq (id artifact : string) :
  AgentBuilder.call_run_tests id artifact = AgentBuilder.run_tests id artifact.
Proof. reflexivity. Qed.

(** ** The finalize steps read and leave the state alone *)

Lemma deref_state {G : Type} (l : loc) (w : world G) : (deref l w).2 = w.
Proof. unfold deref. by destruct (objects w !! l). Qed.

Lemma sde_return_solution_state (l1 l2 l3 : loc) (w : world SdeAgent.globals) :
  (SdeAgent.return_solution l1 l2 l3 w).2 = w.
Proof.
  unfold SdeAgent.return_solution, bind, deref, ret.
  destruct (objects w !! l2); [|done]. by destruct (objects w !! l3).
Qed.

Lemma qa_return_solution_state (l1 l2 l3 : loc) (w : world AgentBuilder.globals) :
  (AgentBuilder.return_solution l1 l2 l3 w).2 = w.
Proof.
  unfold AgentBuilder.return_solution, bind, deref, ret.
  destruct (objects w !! l2); [|done]. by destruct (objects w !! l3).
Qed.

Lemma return_feedback_state (l1 l2 : loc) (fi : option string) (w : world AgentBuilder.globals) :
  (AgentBuilder.return_feedback l1 l2 fi w).2 = w.
Proof.
  unfold AgentBuilder.return_feedback, bind, deref, ret.
  destruct (objects w !! l1); [|done]. by destruct (objects w !! l2).
Qed.

(** ** The registry along a run *)

Lemma alloc_spec {G : Type} (d : dict) (w : world G) :
  alloc d w = (Return (length (objects w)), World (globals w) (objects w ++ [d])).
Proof. reflexivity. Qed.

Lemma lookup_alloc (h : heap) (d : dict) : (h ++ [d]) !! length h = Some d.
Proof. by rewrite list_lookup_middle. Qed.

(** A generation call of a turn: the new dict object is stamped, the set
    gains the identifier. *)
Lemma sde_perform_generate (d : dict) (r : Z) (w : world SdeAgent.globals) :
  exists code,
    SdeAgent.perform (SdeAgent.GenerateCode d r) w =
      (Return [("task_id", Data (DStr (task_id_of r)));
               ("code", Data (DStr code));
               ("task_details", Ref (length (objects w)))],
       World (SdeAgent.Globals (SdeAgent.request_ids (globals w))
                ({[task_id_of r]} ∪ SdeAgent.task_ids (globals w)))
             (objects w ++ [dict_set "task_id" (DStr (task_id_of r)) d])).
Proof.
  destruct (generate_code_spec (World (globals w) (objects w ++ [d]))
              (length (objects w)) d r (lookup_alloc _ _)) as [code Hc].
  exists code. unfold SdeAgent.perform, bind. rewrite alloc_spec, Hc.
  cbn [objects globals].
  by rewrite insert_app_r_alt, Nat.sub_diag by lia.
Qed.

Lemma qa_perform_generate (d : dict) (r : Z) (w : world AgentBuilder.globals) :
  exists tests,
    AgentBuilder.perform (AgentBuilder.GenerateTests d r) w =
      (Return [("qa_task_id", Data (DStr (qa_task_id_of r)));
               ("tests", Data (DStr tests));
               ("qa_details", Ref (length (objects w)))],
       World (AgentBuilder.Globals (AgentBuilder.task_ids (globals w))
                ({[qa_task_id_of r]} ∪ AgentBuilder.qa_task_ids (globals w)))
             (objects w ++ [dict_set "qa_task_id" (DStr (qa_task_id_of r)) d])).
Proof.
  destruct (generate_tests_spec (World (globals w) (objects w ++ [d]))
              (length (objects w)) d r (lookup_alloc _ _)) as [tests Hc].
  exists tests. unfold AgentBuilder.perform, bind. rewrite alloc_spec, Hc.
  cbn [objects globals].
  by rewrite insert_app_r_alt, Nat.sub_diag by lia.
Qed.

(** The finalize calls of a turn add dict objects and leave the sets alone. *)
Lemma sde_perform_solution_globals (a b c : dict) (w : world SdeAgent.globals) :
  globals (SdeAgent.perform (SdeAgent.ReturnSolution a b c) w).2 = globals w.
Proof.
  unfold SdeAgent.perform, bind. rewrite !alloc_spec.
  pose proof (sde_return_solution_state
    (length (objects w))
    (length (objects (World (globals w) (objects w ++ [a]))))
    (length (objects (World (globals w) ((objects w ++ [a]) ++ [b]))))
    (World (globals w) (((objects w ++ [a]) ++ [b]) ++ [c]))) as H.
  cbn [objects globals] in *.
  destruct (SdeAgent.return_solution _ _ _ _) as [out w']. simpl in H. by subst.
Qed.

Lemma qa_perform_solution_globals (a b c : dict) (w : world AgentBuilder.globals) :
  globals (AgentBuilder.perform (AgentBuilder.ReturnSolution a b c) w).2 = globals w.
Proof.
  unfold AgentBuilder.perform, bind. rewrite !alloc_spec.
  pose proof (qa_return_solution_state
    (length (objects w))
    (length (objects (World (globals w) (objects w ++ [a]))))
    (length (objects (World (globals w) ((objects w ++ [a]) ++ [b]))))
    (World (globals w) (((objects w ++ [a]) ++ [b]) ++ [c]))) as H.
  cbn [objects globals] in *.
  destruct (AgentBuilder.return_solution _ _ _ _) as [out w']. simpl in H. by subst.
Qed.

Lemma qa_perform_feedback_globals (a b : dict) (fi : option string)
    (w : world AgentBuilder.globals) :
  globals (AgentBuilder.perform (AgentBuilder.ReturnFeedback a b fi) w).2 = globals w.
Proof.
  unfold AgentBuilder.perform, bind. rewrite !alloc_spec.
  pose proof (return_feedback_state
    (length (objects w))
    (length (objects (World (globals w) (objects w ++ [a])))) fi
    (World (globals w) ((objects w ++ [a]) ++ [b]))) as H.
  cbn [objects globals] in *.
  destruct (AgentBuilder.return_feedback _ _ _ _) as [out w']. simpl in H. by subst.
Qed.

(** One call of the SDE module: the set [task_ids] gains the identifier the
    call issued, if any. *)
Lemma sde_perform_registry (c : SdeAgent.call) (w : world SdeAgent.globals) :
  SdeAgent.task_ids (globals (SdeAgent.perform c w).2) =
    list_to_set (option_list (SdeAgent.issued_by c (SdeAgent.perform c w).1))
      ∪ SdeAgent.task_ids (globals w).
Proof.
  destruct c as [d r|id code|a b c].
  - destruct (sde_perform_generate d r w) as [code ->]. cbn. set_solver.
  - unfold SdeAgent.perform.
    destruct (decide (id ∈ SdeAgent.task_ids (globals w))).
    + rewrite sde_run_tests_known by done. cbn. set_solver.
    + rewrite sde_run_tests_unknown by done. cbn. set_solver.
  - rewrite sde_perform_solution_globals. cbn. set_solver.
Qed.

Lemma sde_run_calls_registry (cs : list SdeAgent.call) (w : world SdeAgent.globals) :
  SdeAgent.task_ids (globals (SdeAgent.run_calls cs w).2) =
    list_to_set (SdeAgent.issued (SdeAgent.run_calls cs w).1)
      ∪ SdeAgent.task_ids (globals w).
Proof.
  revert w. induction cs as [|c cs IH]; intros w; simpl.
  - set_solver.
  - pose proof (sde_perform_registry c w) as Hc.
    destruct (SdeAgent.perform c w) as [out w1] eqn:E1.
    specialize (IH w1).
    destruct (SdeAgent.run_calls cs w1) as [log w2] eqn:E2.
    simpl in *. rewrite IH, Hc. unfold SdeAgent.issued. simpl.
    destruct (SdeAgent.issued_by c out); simpl; set_solver.
Qed.

(** One call of the QA module: [qa_task_ids] gains the identifier the call
    issued, if any, and [task_ids] stays as it is. *)
Lemma qa_perform_registry (c : AgentBuilder.call) (w : world AgentBuilder.globals) :
  AgentBuilder.qa_task_ids (globals (AgentBuilder.perform c w).2) =
    list_to_set (option_list (AgentBuilder.issued_by c (AgentBuilder.perform c w).1))
      ∪ AgentBuilder.qa_task_ids (globals w)
  /\ AgentBuilder.task_ids (globals (AgentBuilder.perform c w).2) =
      AgentBuilder.task_ids (globals w).
Proof.
  destruct c as [d r|id code|a b fi|a b c].
  - destruct (qa_perform_generate d r w) as [tests ->]. cbn. set_solver.
  - unfold AgentBuilder.perform. rewrite call_run_tests_eq.
    destruct (decide (id ∈ AgentBuilder.task_ids (globals w))).
    + unfold AgentBuilder.run_tests, bind, read_globals, ret.
      rewrite bool_decide_eq_false_2 by (by intros ?). cbn. set_solver.
    + rewrite qa_run_tests_unknown by done. cbn. set_solver.
  - rewrite qa_perform_feedback_globals. cbn. set_solver.
  - rewrite qa_perform_solution_globals. cbn. set_solver.
Qed.

Lemma qa_run_calls_registry (cs : list AgentBuilder.call) (w : world AgentBuilder.globals) :
  AgentBuilder.qa_task_ids (globals (AgentBuilder.run_calls cs w).2) =
    list_to_set (AgentBuilder.issued (AgentBuilder.run_calls cs w).1)
      ∪ AgentBuilder.qa_task_ids (globals w)
  /\ AgentBuilder.task_ids (globals (AgentBuilder.run_calls cs w).2) =
      AgentBuilder.task_ids (globals w).
Proof.
  revert w. induction cs as [|c cs IH]; intros w; simpl.
  - set_solver.
  - pose proof (qa_perform_registry c w) as [Hc Ht].
    destruct (AgentBuilder.perform c w) as [out w1] eqn:E1.
    specialize (IH w1) as [IH1 IH2].
    destruct (AgentBuilder.run_calls cs w1) as [log w2] eqn:E2.
    simpl in *. rewrite IH1, IH2, Hc, Ht. unfold AgentBuilder.issued. simpl.
    destruct (AgentBuilder.issued_by c out); simpl; set_solver.
Qed.

(** The sets of a run that starts when the module is loaded hold the
    identifiers the run issued, and nothing else. *)
Lemma sde_registry_is_issued (cs : list SdeAgent.call) (id : string) :
  id ∈ SdeAgent.task_ids (globals (SdeAgent.run_calls cs SdeAgent.start).2)
  <-> id ∈ SdeAgent.issued (SdeAgent.run_calls cs SdeAgent.start).1.
Proof.
  rewrite sde_run_calls_registry. cbn [SdeAgent.start globals SdeAgent.module_init SdeAgent.task_ids].
  set_solver.
Qed.

Lemma qa_registry_is_issued (qs : list AgentBuilder.call) (id : string) :
  id ∈ AgentBuilder.qa_task_ids (globals (AgentBuilder.run_calls qs AgentBuilder.start).2)
  <-> id ∈ AgentBuilder.issued (AgentBuilder.run_calls qs AgentBuilder.start).1.
Proof.
  destruct (qa_run_calls_registry qs AgentBuilder.start) as [-> _].
  cbn [AgentBuilder.start globals AgentBuilder.module_init AgentBuilder.qa_task_ids].
  set_solver.
Qed.

(** Nothing ever enters the set [task_ids] of the QA module. *)
Lemma qa_task_ids_empty (qs : list AgentBuilder.call) :
  AgentBuilder.task_ids (globals (AgentBuilder.run_calls qs AgentBuilder.start).2) = ∅.
Proof. by destruct (qa_run_calls_registry qs AgentBuilder.start) as [_ ->]. Qed.

(** ** The shape of the identifiers *)

Lemma task_id_of_inj (r1 r2 : Z) : task_id_of r1 = task_id_of r2 -> r1 = r2.
Proof.
  unfold task_id_of, str_int. intros H. simpl in H.
  repeat (injection H as H). by apply (inj pretty).
Qed.

Lemma qa_task_id_of_inj (r1 r2 : Z) : qa_task_id_of r1 = qa_task_id_of r2 -> r1 = r2.
Proof.
  unfold qa_task_id_of, str_int. intros H. simpl in H.
  repeat (injection H as H). by apply (inj pretty).
Qed.

Lemma task_id_not_qa_task_id (r1 r2 : Z) : task_id_of r1 <> qa_task_id_of r2.
Proof. unfold task_id_of, qa_task_id_of. simpl. discriminate. Qed.

Lemma sde_issued_by_shape (c : SdeAgent.call) (w : world SdeAgent.globals) (id : string) :
  SdeAgent.issued_by c (SdeAgent.perform c w).1 = Some id -> exists r, id = task_id_of r.
Proof.
  destruct c as [d r|i code|a b c]; [|done..].
  destruct (sde_perform_generate d r w) as [code ->]. cbn. intros [= <-]. by exists r.
Qed.

Lemma qa_issued_by_shape (c : AgentBuilder.call) (w : world AgentBuilder.globals) (id : string) :
  AgentBuilder.issued_by c (AgentBuilder.perform c w).1 = Some id -> exists r, id = qa_task_id_of r.
Proof.
  destruct c as [d r|i code|a b fi|a b c]; [|done..].
  destruct (qa_perform_generate d r w) as [tests ->]. cbn. intros [= <-]. by exists r.
Qed.

Lemma sde_issued_shape (cs : list SdeAgent.call) (w : world SdeAgent.globals) (id : string) :
  id ∈ SdeAgent.issued (SdeAgent.run_calls cs w).1 -> exists r, id = task_id_of r.
Proof.
  revert w. induction cs as [|c cs IH]; intros w; simpl.
  - by intros ?%elem_of_nil.
  - pose proof (sde_issued_by_shape c w) as Hc.
    destruct (SdeAgent.perform c w) as [out w1].
    specialize (IH w1). destruct (SdeAgent.run_calls cs w1) as [log w2].
    unfold SdeAgent.issued in *. simpl in *.
    destruct (SdeAgent.issued_by c out) as [i|]; [|done].
    intros [->|H]%elem_of_cons; eauto.
Qed.

Lemma qa_issued_shape (qs : list AgentBuilder.call) (w : world AgentBuilder.globals) (id : string) :
  id ∈ AgentBuilder.issued (AgentBuilder.run_calls qs w).1 -> exists r, id = qa_task_id_of r.
Proof.
  revert w. induction qs as [|c qs IH]; intros w; simpl.
  - by intros ?%elem_of_nil.
  - pose proof (qa_issued_by_shape c w) as Hc.
    destruct (AgentBuilder.perform c w) as [out w1].
    specialize (IH w1). destruct (AgentBuilder.run_calls qs w1) as [log w2].
    unfold AgentBuilder.issued in *. simpl in *.
    destruct (AgentBuilder.issued_by c out) as [i|]; [|done].
    intros [->|H]%elem_of_cons; eauto.
Qed.

(** ** Validity right after issue *)

(** In the SDE module the run step accepts an identifier right after
    [generate_code] returned it. *)
Lemma sde_run_accepts_fresh_id (d : dict) (r : Z) (code : string)
    (w : world SdeAgent.globals) :
  let c := SdeAgent.GenerateCode d r in
  SdeAgent.issued_by c (SdeAgent.perform c w).1 = Some (task_id_of r)
  /\ SdeAgent.run_tests (task_id_of r) code (SdeAgent.perform c w).2 =
       (Return (passed "task_id" (task_id_of r)), (SdeAgent.perform c w).2).
Proof.
  intros c. subst c. destruct (sde_perform_generate d r w) as [txt ->].
  split; [done|]. apply sde_run_tests_known. cbn. set_solver.
Qed.

(** The function of line 53 would accept an identifier right after
    [generate_tests] returned it. *)
Lemma line53_run_accepts_fresh_id (d : dict) (r : Z) (tests : string)
    (w : world AgentBuilder.globals) :
  let c := AgentBuilder.GenerateTests d r in
  AgentBuilder.Line53.run_tests (qa_task_id_of r) tests (AgentBuilder.perform c w).2 =
    (Return (passed "qa_task_id" (qa_task_id_of r)), (AgentBuilder.perform c w).2).
Proof.
  intros c. subst c. destruct (qa_perform_generate d r w) as [txt ->].
  apply line53_run_tests_known. cbn. set_solver.
Qed.

(** C1. In the QA module the claim fails: at any point of a run, the
    identifier that [generate_tests] has just returned is refused by the
    name [run_tests], which is bound to the function of line 102 and looks
    the identifier up in [task_ids], a set that nothing fills. The outcome is
    the invalid-identifier one. *)
Theorem qa_run_rejects_fresh_id (qs : list AgentBuilder.call) (d : dict) (r : Z)
    (tests : string) :
  let w := (AgentBuilder.run_calls qs AgentBuilder.start).2 in
  let c := AgentBuilder.GenerateTests d r in
  let w1 := (AgentBuilder.perform c w).2 in
  AgentBuilder.issued_by c (AgentBuilder.perform c w).1 = Some (qa_task_id_of r)
  /\ qa_task_id_of r ∈ AgentBuilder.qa_task_ids (globals w1)
  /\ AgentBuilder.call_run_tests (qa_task_id_of r) tests w1 =
       (Return (invalid_task_id (qa_task_id_of r)), w1)
  /\ invalid_status (AgentBuilder.call_run_tests (qa_task_id_of r) tests w1).1 = true.
Proof.
  intros w c w1. subst c w1.
  pose proof (qa_task_ids_empty qs) as Hempty. fold w in Hempty.
  destruct (qa_perform_generate d r w) as [txt ->]. cbn [fst snd].
  split; [done|]. split; [cbn; set_solver|].
  rewrite call_run_tests_eq, qa_run_tests_unknown; [done|].
  cbn. rewrite Hempty. set_solver.
Qed.

(** The same on one input: the module just loaded, details with a feature,
    the draw 1234567. *)
Example qa_fresh_id_rejected_example :
  let c := AgentBuilder.GenerateTests [("feature", DStr "login")] 1234567 in
  let w1 := (AgentBuilder.perform c AgentBuilder.start).2 in
  AgentBuilder.issued_by c (AgentBuilder.perform c AgentBuilder.start).1 =
    Some "qa_task_id_1234567"
  /\ (AgentBuilder.call_run_tests "qa_task_id_1234567" "assert True" w1).1 =
    Return [("task_id", Data (DStr "qa_task_id_1234567"));
            ("status", Data (DStr "Error: Invalid task_id."))]
  /\ (AgentBuilder.Line53.run_tests "qa_task_id_1234567" "assert True" w1).1 =
    Return [("qa_task_id", Data (DStr "qa_task_id_1234567"));
            ("status", Data (DStr "All tests passed."))].
Proof. vm_compute. repeat split. Qed.

(** ** Uniqueness of the identifiers *)

(** Two generation calls that draw different numbers return different
    identifiers. *)
Lemma distinct_draws_distinct_ids (r1 r2 : Z) :
  r1 <> r2 -> task_id_of r1 <> task_id_of r2 /\ qa_task_id_of r1 <> qa_task_id_of r2.
Proof.
  intros H. split; intros E; [apply task_id_of_inj in E|apply qa_task_id_of_inj in E]; done.
Qed.

(** C2. The claim fails on the code: nothing compares a new identifier with
    the ones already issued. Two generation calls of one run whose
    [random.randint] draws are equal return the same identifier, in the SDE
    module and in the QA module alike, and the set holds it once. *)
Theorem generate_repeats_id_on_equal_draws (d1 d2 : dict) (r : Z) :
  let sde := SdeAgent.run_calls
               [SdeAgent.GenerateCode d1 r; SdeAgent.GenerateCode d2 r] SdeAgent.start in
  let qa := AgentBuilder.run_calls
              [AgentBuilder.GenerateTests d1 r; AgentBuilder.GenerateTests d2 r]
              AgentBuilder.start in
  SdeAgent.issued sde.1 = [task_id_of r; task_id_of r]
  /\ AgentBuilder.issued qa.1 = [qa_task_id_of r; qa_task_id_of r]
  /\ ~ NoDup (SdeAgent.issued sde.1)
  /\ ~ NoDup (AgentBuilder.issued qa.1)
  /\ SdeAgent.task_ids (globals sde.2) = {[task_id_of r]}
  /\ AgentBuilder.qa_task_ids (globals qa.2) = {[qa_task_id_of r]}.
Proof.
  intros sde qa.
  assert (SdeAgent.issued sde.1 = [task_id_of r; task_id_of r]) as Hs.
  { subst sde. cbn [SdeAgent.run_calls].
    destruct (sde_perform_generate d1 r SdeAgent.start) as [c1 ->].
    match goal with |- context [SdeAgent.perform _ ?w] =>
      destruct (sde_perform_generate d2 r w) as [c2 ->] end.
    reflexivity. }
  assert (AgentBuilder.issued qa.1 = [qa_task_id_of r; qa_task_id_of r]) as Hq.
  { subst qa. cbn [AgentBuilder.run_calls].
    destruct (qa_perform_generate d1 r AgentBuilder.start) as [c1 ->].
    match goal with |- context [AgentBuilder.perform _ ?w] =>
      destruct (qa_perform_generate d2 r w) as [c2 ->] end.
    reflexivity. }
  split; [done|]. split; [done|].
  split; [rewrite Hs; intros H; apply NoDup_cons in H as [H _]; set_solver|].
  split; [rewrite Hq; intros H; apply NoDup_cons in H as [H _]; set_solver|].
  split.
  - subst sde. rewrite sde_run_calls_registry, Hs. cbn. set_solver.
  - subst qa. destruct (qa_run_calls_registry
      [AgentBuilder.GenerateTests d1 r; AgentBuilder.GenerateTests d2 r]
      AgentBuilder.start) as [-> _]. rewrite Hq. cbn. set_solver.
Qed.

(** The same on one input: two calls on empty details, the draw 1234567
    both times. *)
Example equal_draws_example :
  SdeAgent.issued (SdeAgent.run_calls
      [SdeAgent.GenerateCode [] 1234567; SdeAgent.GenerateCode [] 1234567]
      SdeAgent.start).1 =
    ["task_id_1234567"; "task_id_1234567"].
Proof. vm_compute. reflexivity. Qed.

(** ** Unknown identifiers *)



(** ** The two namespaces *)

(** C9. An identifier that [generate_code] issued in a run of the SDE module
    is refused by the membership test against [qa_task_ids] (the function of
    line 53 of the QA module) at every point of every run of the QA module,
    also one in which no identifier was issued, with the very outcome an
    unknown identifier gets; the name [run_tests] of the loaded QA module
    refuses it too. And an identifier that [generate_tests] issued in a run of
    the QA module is refused by the tests against [task_ids], in the SDE
    module at every point of every run of it and in the QA module alike. *)
Theorem namespaces_disjoint (cs : list SdeAgent.call) (qs : list AgentBuilder.call)
    (coding_id qa_id artifact : string) :
  let w := (SdeAgent.run_calls cs SdeAgent.start).2 in
  let v := (AgentBuilder.run_calls qs AgentBuilder.start).2 in
  (coding_id ∈ SdeAgent.issued (SdeAgent.run_calls cs SdeAgent.start).1 ->
     coding_id ∈ SdeAgent.task_ids (globals w)
     /\ (coding_id ∉ AgentBuilder.qa_task_ids (globals v))
     /\ AgentBuilder.Line53.run_tests coding_id artifact v =
          (Return (invalid_qa_task_id coding_id), v)
     /\ AgentBuilder.call_run_tests coding_id artifact v =
          (Return (invalid_task_id coding_id), v))
  /\ (qa_id ∈ AgentBuilder.issued (AgentBuilder.run_calls qs AgentBuilder.start).1 ->
     qa_id ∈ AgentBuilder.qa_task_ids (globals v)
     /\ (qa_id ∉ SdeAgent.task_ids (globals w))
     /\ SdeAgent.run_tests qa_id artifact w = (Return (invalid_task_id qa_id), w)
     /\ AgentBuilder.run_tests qa_id artifact v = (Return (invalid_task_id qa_id), v)).
Proof.
  intros w v. split.
  - intros Hs.
    assert (coding_id ∉ AgentBuilder.qa_task_ids (globals v)) as Hc.
    { subst v. rewrite qa_registry_is_issued. intros Hin.
      apply sde_issued_shape in Hs as [r1 ->]. apply qa_issued_shape in Hin as [r2 E].
      by apply task_id_not_qa_task_id in E. }
    split; [subst w; by rewrite sde_registry_is_issued|].
    split; [done|].
    split; [by apply line53_run_tests_unknown|].
    rewrite call_run_tests_eq.
    apply qa_run_tests_unknown; subst v; rewrite qa_task_ids_empty; set_solver.
  - intros Hq.
    assert (qa_id ∉ SdeAgent.task_ids (globals w)) as Hn.
    { subst w. rewrite sde_registry_is_issued. intros Hin.
      apply qa_issued_shape in Hq as [r1 ->]. apply sde_issued_shape in Hin as [r2 E].
      symmetry in E. by apply task_id_not_qa_task_id in E. }
    split; [subst v; by rewrite qa_registry_is_issued|].
    split; [done|].
    split; [by apply sde_run_tests_unknown|].
    apply qa_run_tests_unknown; subst v; rewrite qa_task_ids_empty; set_solver.
Qed.

Lemma namespaces_disjoint_witness :
  let cs := [SdeAgent.GenerateCode [("feature", DStr "login")] 1234567] in
  let v := AgentBuilder.start in
  SdeAgent.issued (SdeAgent.run_calls cs SdeAgent.start).1 = ["task_id_1234567"]
  /\ AgentBuilder.Line53.run_tests "task_id_1234567" "pass" v =
       (Return (invalid_qa_task_id "task_id_1234567"), v).
Proof.
  intros cs v.
  split; [vm_compute; reflexivity|].
  refine (proj1 (proj2 (proj2
    (proj1 (namespaces_disjoint cs [] "task_id_1234567" "qa_task_id_1234567" "pass") _)))).
  apply (bool_decide_unpack _). vm_compute. exact I.
Defined.

(** ** The artifact is not read *)

(** C10. In a given state and for a given identifier the run step returns
    the same outcome and the same state for any two artifacts; this holds for
    [run_tests] of the SDE module, for both functions [run_tests] of the QA
    module and for the name [run_tests] of the loaded QA module. *)
Theorem run_independent_of_artifact (w : world SdeAgent.globals)
    (v : world AgentBuilder.globals) (id artifact1 artifact2 : string) :
  SdeAgent.run_tests id artifact1 w = SdeAgent.run_tests id artifact2 w
  /\ AgentBuilder.run_tests id artifact1 v = AgentBuilder.run_tests id artifact2 v
  /\ AgentBuilder.Line53.run_tests id artifact1 v = AgentBuilder.Line53.run_tests id artifact2 v
  /\ AgentBuilder.call_run_tests id artifact1 v = AgentBuilder.call_run_tests id artifact2 v.
Proof. repeat split. Qed.

(** On the valid path the status is the fixed text, whatever the artifact. *)
Lemma run_passes_known_id (w : world SdeAgent.globals) (id artifact : string) :
  id ∈ SdeAgent.task_ids (globals w) ->
  dict_lookup "status" (passed "task_id" id) = Some (Data (DStr "All tests passed."))
  /\ SdeAgent.run_tests id artifact w = (Return (passed "task_id" id), w).
Proof. intros H. split; [done|]. by apply sde_run_tests_known. Qed.

(** ** The limits on printing *)

Lemma collect_agrees {A B : Type} (f : A -> result B) (g : A -> B) (l : list A)
    (ys : list B) :
  (forall x y, f x = Return y -> y = g x) ->
  collect f l = Return ys -> ys = map g l.
Proof.
  intros Hf. revert ys. induction l as [|x l IH]; intros ys; cbn [collect map].
  - by intros [= <-].
  - destruct (f x) as [y|e] eqn:Hx; [|done].
    destruct (collect f l) as [zs|e]; [|done].
    intros [= <-]. f_equal; [by apply Hf | by apply IH].
Qed.

Lemma collect_fault {A B : Type} (f : A -> result B) (P : exn -> Prop) (l : list A)
    (e : exn) :
  (forall x e', f x = Raise e' -> P e') ->
  collect f l = Raise e -> P e.
Proof.
  intros Hf. induction l as [|x l IH]; cbn [collect]; [done|].
  destruct (f x) as [y|e'] eqn:Hx.
  - destruct (collect f l) as [zs|e'']; [done|]. intros [= <-]. by apply IH.
  - intros [= <-]. by apply (Hf x).
Qed.

Lemma str_int_limited_agrees (lim : limits) (n : Z) (t : string) :
  str_int_limited lim n = Return t -> t = str_int n.
Proof. unfold str_int_limited. by destruct (too_many_digits lim n); intros [= <-]. Qed.

(** Where the limited [repr] gives a text, it is the text of [repr]. *)
Lemma repr_limited_agrees (lim : limits) (depth : nat) (v : data) (t : string) :
  repr_limited lim depth v = Return t -> t = repr v.
Proof.
  revert v t. induction depth as [|depth IH]; intros v t; cbn [repr_limited]; [done|].
  destruct v as [| b | n | s | l | d].
  - by intros [= <-].
  - by intros [= <-].
  - apply str_int_limited_agrees.
  - by intros [= <-].
  - destruct (collect (repr_limited lim depth) l) as [texts|e] eqn:Hc; [|done].
    intros [= <-]. cbn [repr].
    apply collect_agrees with (g := repr) in Hc; [by rewrite Hc|exact IH].
  - destruct (collect _ d) as [texts|e] eqn:Hc; [|done].
    intros [= <-]. cbn [repr].
    apply collect_agrees with (g := fun kv => repr_str kv.1 +:+ ": " +:+ repr kv.2) in Hc;
      [by rewrite Hc|].
    intros kv y. destruct (repr_limited lim depth kv.2) as [t'|e] eqn:Hk; [|done].
    intros [= <-]. by rewrite (IH _ _ Hk).
Qed.

Lemma str_limited_agrees (lim : limits) (v : data) (t : string) :
  str_limited lim v = Return t -> t = str v.
Proof.
  destruct v; cbn [str_limited str]; try apply repr_limited_agrees. by intros [= <-].
Qed.

(** Where the limited encoder gives a text, it is the text of [json_dumps]. *)
Lemma json_dumps_limited_agrees (lim : limits) (depth : nat) (v : data) (t : string) :
  json_dumps_limited lim depth v = Return t -> t = json_dumps v.
Proof.
  revert v t. induction depth as [|depth IH]; intros v t;
    destruct v as [| b | n | s | l | d]; cbn [json_dumps_limited];
    try (by intros [= <-]); try apply str_int_limited_agrees.
  - destruct (collect (json_dumps_limited lim depth) l) as [texts|e] eqn:Hc; [|done].
    intros [= <-]. cbn [json_dumps].
    apply collect_agrees with (g := json_dumps) in Hc; [by rewrite Hc|exact IH].
  - destruct (collect _ d) as [texts|e] eqn:Hc; [|done].
    intros [= <-]. cbn [json_dumps].
    apply collect_agrees with (g := fun kv => json_str kv.1 +:+ ": " +:+ json_dumps kv.2) in Hc;
      [by rewrite Hc|].
    intros kv y. destruct (json_dumps_limited lim depth kv.2) as [t'|e] eqn:Hk; [|done].
    intros [= <-]. by rewrite (IH _ _ Hk).
Qed.

Lemma str_int_limited_fault (lim : limits) (n : Z) (e : exn) :
  str_int_limited lim n = Raise e -> e = digits_error lim.
Proof. unfold str_int_limited. by destruct (too_many_digits lim n); intros [= <-]. Qed.

Lemma repr_limited_fault (lim : limits) (depth : nat) (v : data) (e : exn) :
  repr_limited lim depth v = Raise e -> print_fault lim e.
Proof.
  revert v e. induction depth as [|depth IH]; intros v e; cbn [repr_limited].
  - intros [= <-]. by right.
  - destruct v as [| b | n | s | l | d]; try done.
    + intros H. left. by apply str_int_limited_fault in H.
    + destruct (collect (repr_limited lim depth) l) as [texts|e'] eqn:Hc; [done|].
      intros [= <-]. apply collect_fault with (P := print_fault lim) in Hc; [done|exact IH].
    + destruct (collect _ d) as [texts|e'] eqn:Hc; [done|].
      intros [= <-]. apply collect_fault with (P := print_fault lim) in Hc; [done|].
      intros kv e''. destruct (repr_limited lim depth kv.2) as [t'|e3] eqn:Hk; [done|].
      intros [= <-]. by apply (IH _ _ Hk).
Qed.

Lemma str_limited_fault (lim : limits) (v : data) (e : exn) :
  str_limited lim v = Raise e -> print_fault lim e.
Proof. destruct v; cbn [str_limited]; try apply repr_limited_fault. done. Qed.

Lemma json_dumps_limited_fault (lim : limits) (depth : nat) (v : data) (e : exn) :
  json_dumps_limited lim depth v = Raise e -> encode_fault lim e.
Proof.
  revert v e. induction depth as [|depth IH]; intros v e;
    destruct v as [| b | n | s | l | d]; cbn [json_dumps_limited]; try done;
    try (intros H; left; by apply str_int_limited_fault in H);
    try (intros [= <-]; by right).
  - destruct (collect (json_dumps_limited lim depth) l) as [texts|e'] eqn:Hc; [done|].
    intros [= <-]. apply collect_fault with (P := encode_fault lim) in Hc; [done|exact IH].
  - destruct (collect _ d) as [texts|e'] eqn:Hc; [done|].
    intros [= <-]. apply collect_fault with (P := encode_fault lim) in Hc; [done|].
    intros kv e''. destruct (json_dumps_limited lim depth kv.2) as [t'|e3] eqn:Hk; [done|].
    intros [= <-]. by apply (IH _ _ Hk).
Qed.

(** The seven digits of a draw are below every limit that can be set. *)
Lemma draw_prints (lim : limits) (r : Z) :
  1000000 <= r <= 9999999 ->
  digits_limit_allowed lim ->
  str_int_limited lim r = Return (str_int r).
Proof.
  intros Hr [H0|H640]; unfold str_int_limited, too_many_digits.
  - by rewrite H0.
  - assert (10 ^ 7 <= 10 ^ max_str_digits lim) by (apply Z.pow_le_mono_r; lia).
    assert (10 ^ 7 = 10000000) as E by reflexivity. rewrite E in *.
    destruct (10 ^ max_str_digits lim <=? Z.abs r) eqn:Hle; [|by rewrite andb_false_r].
    apply Z.leb_le in Hle. lia.
Qed.

(** ** The tools under the limits on printing *)

Lemma printed_entries_agree (lim : limits) (k1 k2 k3 : string) (d : dict)
    (a b c : string) :
  printed_entries lim k1 k2 k3 d = Return (a, b, c) ->
  a = str (entry_or_na k1 d) /\ b = str (entry_or_na k2 d) /\ c = str (entry_or_na k3 d).
Proof.
  unfold printed_entries.
  destruct (str_limited lim (entry_or_na k1 d)) as [a'|] eqn:H1; [|done].
  destruct (str_limited lim (entry_or_na k2 d)) as [b'|] eqn:H2; [|done].
  destruct (str_limited lim (entry_or_na k3 d)) as [c'|] eqn:H3; [|done].
  intros [= <- <- <-]. repeat split; by apply (str_limited_agrees lim).
Qed.

Lemma printed_entries_fault (lim : limits) (k1 k2 k3 : string) (d : dict) (e : exn) :
  printed_entries lim k1 k2 k3 d = Raise e -> print_fault lim e.
Proof.
  unfold printed_entries.
  destruct (str_limited lim (entry_or_na k1 d)) as [a'|] eqn:H1;
    [|intros [= <-]; eauto using str_limited_fault].
  destruct (str_limited lim (entry_or_na k2 d)) as [b'|] eqn:H2;
    [|intros [= <-]; eauto using str_limited_fault].
  destruct (str_limited lim (entry_or_na k3 d)) as [c'|] eqn:H3;
    [done|intros [= <-]; eauto using str_limited_fault].
Qed.

(** [generate_code] under the limits: the identifier is added and stamped
    in every case, the outcome is as the three entries print. *)
Lemma limited_generate_code_spec (lim : limits) (w : world SdeAgent.globals) (l : loc)
    (d : dict) (r : Z) :
  objects w !! l = Some d ->
  str_int_limited lim r = Return (str_int r) ->
  SdeAgent.Limited.generate_code lim l r w =
    (match printed_entries lim "language" "requirements" "constraints" d with
     | Return (language, requirements, constraints) =>
         Return [("task_id", Data (DStr (task_id_of r)));
                 ("code", Data (DStr (code_of_texts (task_id_of r)
                                        language requirements constraints)));
                 ("task_details", Ref l)]
     | Raise e => Raise e
     end,
     World (SdeAgent.Globals (SdeAgent.request_ids (globals w))
              ({[task_id_of r]} ∪ SdeAgent.task_ids (globals w)))
           (<[l := dict_set "task_id" (DStr (task_id_of r)) d]> (objects w))).
Proof.
  intros Hl Hr.
  unfold SdeAgent.Limited.generate_code, bind, read_globals, write_globals, setitem, deref.
  rewrite Hr. cbn [lift_result ret objects globals]. rewrite Hl. cbn [objects globals].
  rewrite list_lookup_insert_eq by (eapply lookup_lt_Some; eauto).
  unfold printed_entries, entry_or_na, dict_get.
  rewrite !dict_lookup_set_ne by done.
  fold (task_id_of r).
  cbv [from_option id].
  repeat (destruct (str_limited lim _); cbn [lift_result ret raise]; [|done]). done.
Qed.

Lemma limited_generate_tests_spec (lim : limits) (v : world AgentBuilder.globals) (l : loc)
    (d : dict) (r : Z) :
  objects v !! l = Some d ->
  str_int_limited lim r = Return (str_int r) ->
  AgentBuilder.Limited.generate_tests lim l r v =
    (match printed_entries lim "feature" "test_requirements" "constraints" d with
     | Return (feature, test_requirements, constraints) =>
         Return [("qa_task_id", Data (DStr (qa_task_id_of r)));
                 ("tests", Data (DStr (tests_of_texts (qa_task_id_of r)
                                         feature test_requirements constraints)));
                 ("qa_details", Ref l)]
     | Raise e => Raise e
     end,
     World (AgentBuilder.Globals (AgentBuilder.task_ids (globals v))
              ({[qa_task_id_of r]} ∪ AgentBuilder.qa_task_ids (globals v)))
           (<[l := dict_set "qa_task_id" (DStr (qa_task_id_of r)) d]> (objects v))).
Proof.
  intros Hl Hr.
  unfold AgentBuilder.Limited.generate_tests, bind, read_globals, write_globals, setitem, deref.
  rewrite Hr. cbn [lift_result ret objects globals]. rewrite Hl. cbn [objects globals].
  rewrite list_lookup_insert_eq by (eapply lookup_lt_Some; eauto).
  unfold printed_entries, entry_or_na, dict_get.
  rewrite !dict_lookup_set_ne by done.
  fold (qa_task_id_of r).
  cbv [from_option id].
  repeat (destruct (str_limited lim _); cbn [lift_result ret raise]; [|done]). done.
Qed.

(** Where the three entries print, the tools under the limits are the tools
    [generate_code] and [generate_tests]. *)
Lemma limited_generate_code_agrees (lim : limits) (w : world SdeAgent.globals) (l : loc)
    (d : dict) (r : Z) (texts : string * string * string) :
  objects w !! l = Some d ->
  str_int_limited lim r = Return (str_int r) ->
  printed_entries lim "language" "requirements" "constraints" d = Return texts ->
  SdeAgent.Limited.generate_code lim l r w = SdeAgent.generate_code l r w.
Proof.
  intros Hl Hr Hp. rewrite (limited_generate_code_spec lim w l d r Hl Hr), Hp.
  destruct texts as [[a b] c]. apply printed_entries_agree in Hp as (-> & -> & ->).
  pose proof (generate_code_returns w l d r Hl) as H1.
  destruct (generate_code_spec w l d r Hl) as [code H2].
  rewrite H2 in H1 |- *. cbn [fst] in H1. by rewrite H1.
Qed.

Lemma limited_generate_tests_agrees (lim : limits) (v : world AgentBuilder.globals) (l : loc)
    (d : dict) (r : Z) (texts : string * string * string) :
  objects v !! l = Some d ->
  str_int_limited lim r = Return (str_int r) ->
  printed_entries lim "feature" "test_requirements" "constraints" d = Return texts ->
  AgentBuilder.Limited.generate_tests lim l r v = AgentBuilder.generate_tests l r v.
Proof.
  intros Hl Hr Hp. rewrite (limited_generate_tests_spec lim v l d r Hl Hr), Hp.
  destruct texts as [[a b] c]. apply printed_entries_agree in Hp as (-> & -> & ->).
  pose proof (generate_tests_returns v l d r Hl) as H1.
  destruct (generate_tests_spec v l d r Hl) as [code H2].
  rewrite H2 in H1 |- *. cbn [fst] in H1. by rewrite H1.
Qed.

(** [return_feedback] under the limits: the state stays, the outcome is as
    the status prints and the details encode. *)
Lemma limited_return_feedback_spec (lim : limits) (v : world AgentBuilder.globals)
    (l1 l2 : loc) (qa_details tests_info : dict) (feedback_instructions : option string) :
  objects v !! l1 = Some qa_details ->
  objects v !! l2 = Some tests_info ->
  AgentBuilder.Limited.return_feedback lim l1 l2 feedback_instructions v =
    (match str_limited lim (default (DStr "No status provided")
                              (dict_lookup "status" tests_info)) with
     | Raise e => Raise e
     | Return status =>
         match json_dumps_limited lim (json_depth lim) (DDict qa_details) with
         | Raise e => Raise e
         | Return details =>
             Return [("qa_task_id",
                      Data (default (DStr "") (dict_lookup "qa_task_id" qa_details)));
                     ("feedback",
                      Data (DStr (feedback_of_texts status details feedback_instructions)))]
         end
     end, v).
Proof.
  intros Hq Ht.
  unfold AgentBuilder.Limited.return_feedback, bind, deref. rewrite Hq, Ht.
  unfold dict_get.
  destruct (str_limited lim _) as [status|e]; [|done]. cbn [lift_result ret].
  destruct (json_dumps_limited lim _ _) as [details|e]; [|done]. cbn [lift_result ret].
  unfold feedback_of_texts.
  by destruct (dict_lookup "qa_task_id" qa_details).
Qed.

Lemma limited_return_feedback_agrees (lim : limits) (v : world AgentBuilder.globals)
    (l1 l2 : loc) (qa_details tests_info : dict) (feedback_instructions : option string)
    (status details : string) :
  objects v !! l1 = Some qa_details ->
  objects v !! l2 = Some tests_info ->
  str_limited lim (default (DStr "No status provided") (dict_lookup "status" tests_info))
    = Return status ->
  json_dumps_limited lim (json_depth lim) (DDict qa_details) = Return details ->
  AgentBuilder.Limited.return_feedback lim l1 l2 feedback_instructions v =
    AgentBuilder.return_feedback l1 l2 feedback_instructions v.
Proof.
  intros Hq Ht Hs Hd.
  rewrite (limited_return_feedback_spec lim v l1 l2 _ _ _ Hq Ht), Hs, Hd.
  apply str_limited_agrees in Hs as ->. apply json_dumps_limited_agrees in Hd as ->.
  unfold AgentBuilder.return_feedback, bind, deref, ret. rewrite Hq, Ht.
  unfold dict_get, feedback_of_texts.
  by destruct (dict_lookup "qa_task_id" qa_details), (dict_lookup "status" tests_info).
Qed.

(** ** The generation step and its argument *)

(** C3, as stated, fails on the empty details map: every required key is
    missing, and [generate_code] returns an identifier and an artifact in which
    the missing entries read N/A, not an error value; [generate_tests] does
    the same. *)
Lemma generate_accepts_missing_keys :
  let out := (SdeAgent.generate_code 0 1234567 (World SdeAgent.module_init [[]])).1 in
  let qa_out := (AgentBuilder.generate_tests 0 1234567 (World AgentBuilder.module_init [[]])).1 in
  malformed sde_required_keys [] = true
  /\ out = Return
      [("task_id", Data (DStr "task_id_1234567"));
       ("code", Data (DStr
"# Auto-generated code for task task_id_1234567
# Language: N/A
# Requirements: N/A
# Constraints: N/A

def solution_function():
    # TODO: Implement the solution here
    pass
"));
       ("task_details", Ref 0%nat)]
  /\ structured_error out <> malformed sde_required_keys []
  /\ malformed qa_required_keys [] = true
  /\ structured_error qa_out <> malformed qa_required_keys [].
Proof. vm_compute. repeat split; discriminate. Qed.

(** The generation step raises when an entry cannot be printed: with the
    limits of an interpreter as it starts, an int of 4301 digits under
    [language] makes [generate_code] raise [ValueError], and the identifier
    is in the set all the same. *)
Lemma generate_raises_on_long_int :
  let w := World SdeAgent.module_init [[("language", DInt (10 ^ 4300))]] in
  let out := SdeAgent.Limited.generate_code interpreter_defaults 0 1234567 w in
  out.1 = Raise (ValueError
    "Exceeds the limit (4300 digits) for integer string conversion; use sys.set_int_max_str_digits() to increase the limit")
  /\ "task_id_1234567" ∈ SdeAgent.task_ids (globals out.2).
Proof.
  intros w out. subst out.
  rewrite (limited_generate_code_spec interpreter_defaults w 0%nat
             [("language", DInt (10 ^ 4300))] 1234567 eq_refl eq_refl).
  cbn [fst snd globals SdeAgent.task_ids].
  split; [by vm_compute|]. apply elem_of_union_l, elem_of_singleton. by vm_compute.
Qed.

(** C3, amended. The generation step checks nothing of the details map and
    reports no failure as a value. For a draw of seven digits and any limits
    of the interpreter, [generate_code] and [generate_tests] add the
    identifier to their set and stamp it into the details, and then return
    the record of the identifier, the artifact and the details exactly when
    the three entries the artifact quotes can be printed, a missing entry
    printing as N/A; when one of them cannot be printed, the call raises the
    fault of the print, which is the [ValueError] of the limit on digits or
    the [RecursionError] of the limit on nesting. Where the three entries
    print, the call is the call of the tool without limits. *)
Theorem generate_fails_only_where_print_fails (lim : limits)
    (w : world SdeAgent.globals) (v : world AgentBuilder.globals)
    (l : loc) (d : dict) (r : Z) :
  objects w !! l = Some d ->
  objects v !! l = Some d ->
  1000000 <= r <= 9999999 ->
  digits_limit_allowed lim ->
  let out := SdeAgent.Limited.generate_code lim l r w in
  let qa_out := AgentBuilder.Limited.generate_tests lim l r v in
  out.1 =
    match printed_entries lim "language" "requirements" "constraints" d with
    | Return (language, requirements, constraints) =>
        Return [("task_id", Data (DStr (task_id_of r)));
                ("code", Data (DStr (code_of_texts (task_id_of r)
                                       language requirements constraints)));
                ("task_details", Ref l)]
    | Raise e => Raise e
    end
  /\ qa_out.1 =
    match printed_entries lim "feature" "test_requirements" "constraints" d with
    | Return (feature, test_requirements, constraints) =>
        Return [("qa_task_id", Data (DStr (qa_task_id_of r)));
                ("tests", Data (DStr (tests_of_texts (qa_task_id_of r)
                                        feature test_requirements constraints)));
                ("qa_details", Ref l)]
    | Raise e => Raise e
    end
  /\ structured_error out.1 = false
  /\ structured_error qa_out.1 = false
  /\ (forall e, out.1 = Raise e \/ qa_out.1 = Raise e -> print_fault lim e)
  /\ (forall k, dict_lookup k d = None -> str_limited lim (entry_or_na k d) = Return "N/A")
  /\ (forall texts,
        printed_entries lim "language" "requirements" "constraints" d = Return texts ->
        out = SdeAgent.generate_code l r w)
  /\ (forall texts,
        printed_entries lim "feature" "test_requirements" "constraints" d = Return texts ->
        qa_out = AgentBuilder.generate_tests l r v)
  /\ out.2 = (SdeAgent.generate_code l r w).2
  /\ qa_out.2 = (AgentBuilder.generate_tests l r v).2.
Proof.
  intros Hw Hv Hr Hlim out qa_out.
  pose proof (draw_prints lim r Hr Hlim) as Hd.
  pose proof (limited_generate_code_spec lim w l d r Hw Hd) as Ho.
  pose proof (limited_generate_tests_spec lim v l d r Hv Hd) as Hq.
  fold out in Ho. fold qa_out in Hq.
  destruct (generate_code_spec w l d r Hw) as [code Hc].
  destruct (generate_tests_spec v l d r Hv) as [tests Ht].
  split; [by rewrite Ho|]. split; [by rewrite Hq|].
  split; [rewrite Ho; cbn [fst];
          by destruct (printed_entries lim "language" _ _ d) as [[[? ?] ?]|]|].
  split; [rewrite Hq; cbn [fst];
          by destruct (printed_entries lim "feature" _ _ d) as [[[? ?] ?]|]|].
  split.
  { intros e [He|He]; [rewrite Ho in He|rewrite Hq in He]; cbn [fst] in He.
    - destruct (printed_entries lim "language" _ _ d) as [[[? ?] ?]|e'] eqn:Hp; [done|].
      injection He as <-. by apply printed_entries_fault in Hp.
    - destruct (printed_entries lim "feature" _ _ d) as [[[? ?] ?]|e'] eqn:Hp; [done|].
      injection He as <-. by apply printed_entries_fault in Hp. }
  split; [intros k Hk; unfold entry_or_na; by rewrite Hk|].
  split; [intros texts Hp; by apply (limited_generate_code_agrees lim w l d r texts)|].
  split; [intros texts Hp; by apply (limited_generate_tests_agrees lim v l d r texts)|].
  split; [by rewrite Ho, Hc|by rewrite Hq, Ht].
Qed.

Lemma generate_fails_only_where_print_fails_witness :
  let w := World SdeAgent.module_init [[("language", DStr "python"); ("constraints", DInt 3)]] in
  (SdeAgent.Limited.generate_code interpreter_defaults 0 1234567 w).1 =
    Return [("task_id", Data (DStr "task_id_1234567"));
            ("code", Data (DStr
"# Auto-generated code for task task_id_1234567
# Language: python
# Requirements: N/A
# Constraints: 3

def solution_function():
    # TODO: Implement the solution here
    pass
"));
            ("task_details", Ref 0%nat)].
Proof.
  refine (proj1 (generate_fails_only_where_print_fails interpreter_defaults
    (World SdeAgent.module_init [[("language", DStr "python"); ("constraints", DInt 3)]])
    (World AgentBuilder.module_init [[("language", DStr "python"); ("constraints", DInt 3)]])
    0%nat [("language", DStr "python"); ("constraints", DInt 3)] 1234567
    eq_refl eq_refl _ _)).
  - lia.
  - right. vm_compute. discriminate.
Defined.





(** ** The finalize step *)

(** C8, as stated, fails for [return_feedback]: it is not total. With the
    limits of an interpreter as it starts, a details map that holds an int
    of 4301 digits makes the JSON encoder raise [ValueError], and so does a
    status that is such an int when it is printed; a details map nested
    deeper than the encoder can enter makes it raise [RecursionError]. *)
Lemma return_feedback_raises_on_long_int :
  let big := World AgentBuilder.module_init
               [[("build", DInt (10 ^ 4300))]; [("status", DStr "ok")]] in
  let status := World AgentBuilder.module_init
               [[("build", DInt 7)]; [("status", DInt (10 ^ 4300))]] in
  let deep := World AgentBuilder.module_init
               [[("a", DList [DList []])]; [("status", DStr "ok")]] in
  let digits := ValueError
    "Exceeds the limit (4300 digits) for integer string conversion; use sys.set_int_max_str_digits() to increase the limit" in
  (AgentBuilder.Limited.return_feedback interpreter_defaults 0 1 None big).1 = Raise digits
  /\ (AgentBuilder.Limited.return_feedback interpreter_defaults 0 1 None status).1 = Raise digits
  /\ (AgentBuilder.Limited.return_feedback (Limits 4300 1000 2) 0 1 None deep).1 =
       Raise (RecursionError "maximum recursion depth exceeded while encoding a JSON object").
Proof. by vm_compute. Qed.

(** C8, amended. The finalize steps are pure: given dict objects for their
    arguments they leave the state as it is and give the same outcome when
    called again. [return_solution] is total and returns exactly the fields
    [task_id], [code], [test_status] and [task_details]: the first three are
    the entries [task_id] and [code] of the code information and [status] of
    the test outcome, the empty text standing for a missing entry, and the
    last is the details object itself. [return_feedback] returns a record
    exactly when the status of the test outcome, or [No status provided] when
    it is missing, can be printed and the details can be encoded as JSON
    within the limits of the interpreter; the record then has exactly
    [qa_task_id], the entry of the details or the empty text, and
    [feedback], the text composed of the printed status, of the JSON text and
    of the instructions when there are any, and it is the record of the tool
    without limits. Otherwise [return_feedback] raises the fault of the print
    or of the encoder: the [ValueError] of the limit on digits or a
    [RecursionError]. *)
Theorem finalize_pure_total_where_printable (lim : limits)
    (w : world SdeAgent.globals) (v : world AgentBuilder.globals)
    (l1 l2 l3 : loc) (code_info test_results qa_details tests_info : dict)
    (feedback_instructions : option string) :
  objects w !! l2 = Some code_info ->
  objects w !! l3 = Some test_results ->
  objects v !! l1 = Some qa_details ->
  objects v !! l2 = Some tests_info ->
  let solution := SdeAgent.return_solution l1 l2 l3 in
  let feedback := AgentBuilder.Limited.return_feedback lim l1 l2 feedback_instructions in
  let status :=
    str_limited lim (default (DStr "No status provided") (dict_lookup "status" tests_info)) in
  let details := json_dumps_limited lim (json_depth lim) (DDict qa_details) in
  solution w =
    (Return [("task_id", Data (default (DStr "") (dict_lookup "task_id" code_info)));
             ("code", Data (default (DStr "") (dict_lookup "code" code_info)));
             ("test_status", Data (default (DStr "") (dict_lookup "status" test_results)));
             ("task_details", Ref l1)], w)
  /\ solution (solution w).2 = solution w
  /\ (feedback v).2 = v
  /\ feedback (feedback v).2 = feedback v
  /\ (feedback v).1 =
       match status, details with
       | Return s, Return j =>
           Return [("qa_task_id",
                    Data (default (DStr "") (dict_lookup "qa_task_id" qa_details)));
                   ("feedback",
                    Data (DStr (feedback_of_texts s j feedback_instructions)))]
       | Raise e, _ => Raise e
       | Return _, Raise e => Raise e
       end
  /\ (forall s j, status = Return s -> details = Return j ->
        feedback v = AgentBuilder.return_feedback l1 l2 feedback_instructions v)
  /\ (forall e, (feedback v).1 = Raise e -> print_fault lim e \/ encode_fault lim e)
  /\ (dict_lookup "status" tests_info = None -> status = Return "No status provided").
Proof.
  intros H2 H3 Hq Ht solution feedback status details.
  assert (solution w =
    (Return [("task_id", Data (default (DStr "") (dict_lookup "task_id" code_info)));
             ("code", Data (default (DStr "") (dict_lookup "code" code_info)));
             ("test_status", Data (default (DStr "") (dict_lookup "status" test_results)));
             ("task_details", Ref l1)], w)) as Hs.
  { subst solution. unfold SdeAgent.return_solution, bind, deref, ret.
    rewrite H2, H3. unfold dict_get.
    by destruct (dict_lookup "task_id" code_info), (dict_lookup "code" code_info),
                (dict_lookup "status" test_results). }
  pose proof (limited_return_feedback_spec lim v l1 l2 _ _ feedback_instructions Hq Ht) as Hf.
  fold feedback status details in Hf.
  split; [done|]. split; [by rewrite Hs|].
  split; [by rewrite Hf|]. split; [by rewrite Hf|].
  split; [rewrite Hf; cbn [fst]; by destruct status, details|].
  split; [intros s j Hs' Hd';
          by apply (limited_return_feedback_agrees lim v l1 l2 qa_details tests_info _ s j)|].
  split.
  { intros e. rewrite Hf. cbn [fst].
    destruct status as [s|e1] eqn:Es.
    - destruct details as [j|e2] eqn:Ed; [done|]. intros [= <-]. right.
      by apply json_dumps_limited_fault in Ed.
    - intros [= <-]. left. by apply str_limited_fault in Es. }
  intros Hm. subst status. by rewrite Hm.
Qed.

Lemma finalize_pure_total_where_printable_witness :
  let v := World AgentBuilder.module_init
             [[("feature", DStr "login"); ("cases", DList [DInt 1; DInt 2])]; []] in
  (AgentBuilder.Limited.return_feedback interpreter_defaults 0 1 (Some "ship it") v).1 =
    Return [("qa_task_id", Data (DStr ""));
            ("feedback", Data (DStr (feedback_of_texts "No status provided"
               (String.concat (chr 34) ["{"; "feature"; ": "; "login"; ", "; "cases"; ": [1, 2]}"])
               (Some "ship it"))))].
Proof.
  exact (proj1 (proj2 (proj2 (proj2 (proj2 (finalize_pure_total_where_printable
    interpreter_defaults
    (World SdeAgent.module_init
       [[("language", DStr "python")];
        [("task_id", DStr "task_id_1234567")];
        [("status", DStr "All tests passed.")]])
    (World AgentBuilder.module_init
       [[("feature", DStr "login"); ("cases", DList [DInt 1; DInt 2])]; []])
    0%nat 1%nat 2%nat
    [("task_id", DStr "task_id_1234567")] [("status", DStr "All tests passed.")]
    [("feature", DStr "login"); ("cases", DList [DInt 1; DInt 2])] []
    (Some "ship it") eq_refl eq_refl eq_refl eq_refl)))))).
Defined.

(** When the test outcome has no status, the feedback of [return_feedback]
    quotes the text [No status provided]; the report differs from the one
    for an empty status. *)
Lemma return_feedback_missing_status_not_empty :
  let absent := World AgentBuilder.module_init [[]; []] in
  let empty := World AgentBuilder.module_init [[]; [("status", DStr "")]] in
  (AgentBuilder.return_feedback 0 1 None absent).1 =
    Return [("qa_task_id", Data (DStr ""));
            ("feedback", Data (DStr
               "Test execution status: No status provided. QA Details: {}. "))]
  /\ (AgentBuilder.return_feedback 0 1 None empty).1 =
    Return [("qa_task_id", Data (DStr ""));
            ("feedback", Data (DStr "Test execution status: . QA Details: {}. "))]
  /\ (AgentBuilder.return_feedback 0 1 None absent).1 <>
     (AgentBuilder.return_feedback 0 1 None empty).1.
Proof. vm_compute. repeat split; discriminate. Qed.

(** ** Turns *)

(** Session resolution raises no fault. *)
Lemma resolve_session_returns (session_id : string) (w : world runner) :
  exists session w', resolve_session session_id w = (Return session, w').
Proof.
  unfold resolve_session, get_session, create_session, bind, read_globals, write_globals, ret.
  cbn [globals objects]. case_bool_decide; eauto.
Qed.

Lemma on_event_flag (updates : string) (ev : event) :
  faulty ev = false ->
  exists item, on_event updates ev = Return item
    /\ is_task_complete item = is_final_response ev.
Proof.
  unfold faulty, on_event. destruct (is_final_response ev); [|eauto].
  destruct (parts_of (event_content ev)) as [|p0 ps]; [eauto|].
  destruct (truthy_text (text p0)); [eauto|].
  cbn [existsb]. destruct (function_response p0) as [dump|] eqn:E.
  - intros _. rewrite bool_decide_eq_true_2 by eauto. cbn. eauto.
  - rewrite (bool_decide_eq_false_2 (is_Some None)) by (by intros [? ?]).
    cbn. intros ->. eauto.
Qed.

Lemma stream_events_flags (updates : string) (evs : list event) :
  Forall (fun ev => faulty ev = false) evs ->
  exists items, stream_events updates evs = (items, None)
    /\ map is_task_complete items = map is_final_response evs.
Proof.
  induction 1 as [|ev evs Hev _ IH]; simpl; [eauto|].
  destruct (on_event_flag updates ev Hev) as (item & -> & Hflag).
  destruct IH as (items & -> & Hflags).
  exists (item :: items). simpl. by rewrite Hflag, Hflags.
Qed.

Lemma on_event_raises (updates : string) (ev : event) :
  faulty ev = true -> exists e, on_event updates ev = Raise e.
Proof.
  unfold faulty, on_event. destruct (is_final_response ev); [|done].
  destruct (parts_of (event_content ev)) as [|p0 ps]; [done|].
  destruct (truthy_text (text p0)); [done|].
  cbn [existsb]. destruct (function_response p0) as [dump|] eqn:E.
  - rewrite bool_decide_eq_true_2 by eauto. done.
  - rewrite (bool_decide_eq_false_2 (is_Some None)) by (by intros [? ?]).
    cbn. intros ->. eauto.
Qed.

(** In general the items follow a prefix of the run, and the loop ends
    without a fault exactly when no event is one on which it raises. *)
Lemma stream_events_prefix (updates : string) (evs : list event) :
  map is_task_complete (stream_events updates evs).1 =
    take (length (stream_events updates evs).1) (map is_final_response evs)
  /\ ((stream_events updates evs).2 = None <-> Forall (fun ev => faulty ev = false) evs).
Proof.
  induction evs as [|ev evs [IH1 IH2]]; simpl; [by split|].
  destruct (faulty ev) eqn:Hf.
  - destruct (on_event_raises updates ev Hf) as [e ->]. simpl. split; [done|].
    split; [done|]. intros H%Forall_cons. destruct H as [H _]. congruence.
  - destruct (on_event_flag updates ev Hf) as (item & -> & Hflag).
    destruct (stream_events updates evs) as [more fault]. simpl in *.
    rewrite Hflag, IH1. split; [done|]. rewrite IH2. split.
    + intros H. by constructor.
    + by intros [_ H]%Forall_cons.
Qed.

(** Each of the three [stream] methods runs the loop over the events of
    the turn. *)
Lemma stream_methods (query session_id : string) (produced : list event) (w : world runner) :
  (SdeAgent.SDEAgent.stream query session_id produced w).1 =
    Return (stream_events "Processing the SDE request..." produced)
  /\ (AgentBuilder.AgentBuilderTemplate.stream query session_id produced w).1 =
    Return (stream_events "Processing the QA request..." produced)
  /\ (CoordinatorAgent.stream query session_id produced w).1 =
    Return (stream_events "Processing the SDE request..." produced).
Proof.
  unfold SdeAgent.SDEAgent.stream, AgentBuilder.AgentBuilderTemplate.stream,
    CoordinatorAgent.stream, bind.
  destruct (resolve_session_returns session_id w) as (session & w' & ->). by cbn.
Qed.

(** C5, as stated, fails: a turn whose run produces no event yields no item
    at all, so no terminal one; a run with two final responses yields two
    terminal items; a final response followed by another event yields an item
    after the terminal one. *)
Lemma stream_shape_not_enforced :
  let w := World (Runner ∅) [] in
  let final := Event (Some (Content (Some [Part (Some "done") None]))) true in
  let progress := Event None false in
  (AgentBuilder.AgentBuilderTemplate.stream "query" "session" [] w).1 = Return ([], None)
  /\ streaming_shape [] = false
  /\ (exists items,
        (CoordinatorAgent.stream "query" "session" [final; final] w).1 = Return (items, None)
        /\ map is_task_complete items = [true; true]
        /\ streaming_shape items = false)
  /\ (exists items,
        (SdeAgent.SDEAgent.stream "query" "session" [final; progress] w).1 = Return (items, None)
        /\ map is_task_complete items = [true; false]
        /\ streaming_shape items = false).
Proof.
  intros w final progress. split; [reflexivity|]. split; [reflexivity|].
  split; eexists; (split; [vm_compute; reflexivity|]); split; reflexivity.
Qed.

(** C5, amended. When no event of the run is one on which the loop raises,
    each [stream] method raises no fault and yields exactly one item per
    event of the run, in the order of the events, with [is_task_complete]
    true exactly for the final responses. Hence the items read: not complete
    any number of times, then complete once, exactly when the run has one
    final response and it comes last. *)
Theorem stream_follows_run (query session_id : string) (produced : list event)
    (w : world runner) :
  Forall (fun ev => faulty ev = false) produced ->
  (exists items,
     (SdeAgent.SDEAgent.stream query session_id produced w).1 = Return (items, None)
     /\ map is_task_complete items = map is_final_response produced
     /\ streaming_shape items = star_then_one (map is_final_response produced))
  /\ (exists items,
     (AgentBuilder.AgentBuilderTemplate.stream query session_id produced w).1 =
       Return (items, None)
     /\ map is_task_complete items = map is_final_response produced
     /\ streaming_shape items = star_then_one (map is_final_response produced))
  /\ (exists items,
     (CoordinatorAgent.stream query session_id produced w).1 = Return (items, None)
     /\ map is_task_complete items = map is_final_response produced
     /\ streaming_shape items = star_then_one (map is_final_response produced)).
Proof.
  intros Hok.
  destruct (stream_methods query session_id produced w) as (-> & -> & ->).
  destruct (stream_events_flags "Processing the SDE request..." produced Hok)
    as (items1 & -> & H1).
  destruct (stream_events_flags "Processing the QA request..." produced Hok)
    as (items2 & -> & H2).
  unfold streaming_shape.
  split; [exists items1; by rewrite H1|].
  split; [exists items2; by rewrite H2|].
  exists items1; by rewrite H1.
Qed.

Lemma stream_follows_run_witness :
  let produced :=
    [Event None false;
     Event (Some (Content (Some [Part (Some "done") None]))) true] in
  Forall (fun ev => faulty ev = false) produced
  /\ exists items,
     (SdeAgent.SDEAgent.stream "query" "session" produced (World (Runner ∅) [])).1 =
       Return (items, None)
     /\ map is_task_complete items = map is_final_response produced
     /\ streaming_shape items = star_then_one (map is_final_response produced).
Proof.
  intros produced.
  assert (Forall (fun ev => faulty ev = false) produced) as Hok
    by (repeat constructor).
  split; [exact Hok|].
  exact (proj1 (stream_follows_run "query" "session" produced (World (Runner ∅) []) Hok)).
Defined.

Lemma final_text_of_list (produced : list event) :
  final_text (List produced) = Return (last_event_text produced).
Proof.
  unfold final_text, last_event_text, truthy, subscript_last.
  case_bool_decide as Hnil; [subst; done|]. cbn [negb].
  destruct (last produced) as [ev|] eqn:El.
  - destruct ev as [[[[[|p ps]|]]|] fin]; done.
  - by apply last_None in El.
Qed.

(** [AgentBuilderTemplate.invoke] and [CoordinatorAgent.invoke], which make
    a list of the run, return that text and raise no fault. *)
Lemma invoke_of_list_returns_text (query session_id : string) (produced : list event)
    (w : world runner) :
  (AgentBuilder.AgentBuilderTemplate.invoke query session_id produced w).1 =
    Return (last_event_text produced)
  /\ (CoordinatorAgent.invoke query session_id produced w).1 =
    Return (last_event_text produced).
Proof.
  unfold AgentBuilder.AgentBuilderTemplate.invoke, CoordinatorAgent.invoke, bind.
  destruct (resolve_session_returns session_id w) as (session & w' & ->).
  unfold run, ret, list_of. cbn [items]. rewrite final_text_of_list. done.
Qed.

(** C6. The claim fails for [SDEAgent.invoke]: it keeps the generator object
    that [Runner.run] returns, which is true whatever it yields, and takes
    its last element, which raises a TypeError. This happens for every query,
    session and run, also when the run has no event, no content or no part,
    where the claim asks for the empty text. *)
Theorem sde_invoke_raises (query session_id : string) (produced : list event)
    (w : world runner) :
  (SdeAgent.SDEAgent.invoke query session_id produced w).1 =
    Raise (TypeError "'generator' object is not subscriptable").
Proof.
  unfold SdeAgent.SDEAgent.invoke, bind.
  destruct (resolve_session_returns session_id w) as (session & w' & ->). reflexivity.
Qed.

(** The same on one input, next to the sibling method: a run whose last
    event has two texts. *)
Example invoke_example :
  let produced :=
    [Event None false;
     Event (Some (Content (Some [Part (Some "Done.") None; Part (Some "Bye.") None]))) true] in
  let w := World (Runner ∅) [] in
  (SdeAgent.SDEAgent.invoke "hello" "session-1" produced w).1 =
    Raise (TypeError "'generator' object is not subscriptable")
  /\ (SdeAgent.SDEAgent.invoke "hello" "session-1" [] w).1 =
    Raise (TypeError "'generator' object is not subscriptable")
  /\ (AgentBuilder.AgentBuilderTemplate.invoke "hello" "session-1" produced w).1 =
    Return ("Done." +:+ nl +:+ "Bye.")
  /\ (AgentBuilder.AgentBuilderTemplate.invoke "hello" "session-1" [] w).1 = Return "".
Proof. vm_compute. repeat split. Qed.

(** * More properties of the code *)

(** ** Runs in two parts *)

Lemma sde_run_calls_app (a b : list SdeAgent.call) (w : world SdeAgent.globals) :
  SdeAgent.run_calls (a ++ b) w =
    ((SdeAgent.run_calls a w).1 ++ (SdeAgent.run_calls b (SdeAgent.run_calls a w).2).1,
     (SdeAgent.run_calls b (SdeAgent.run_calls a w).2).2).
Proof.
  revert w. induction a as [|c a IH]; intros w; simpl.
  - by destruct (SdeAgent.run_calls b w).
  - destruct (SdeAgent.perform c w) as [out w1]. rewrite IH.
    by destruct (SdeAgent.run_calls a w1).
Qed.

Lemma qa_run_calls_app (a b : list AgentBuilder.call) (w : world AgentBuilder.globals) :
  AgentBuilder.run_calls (a ++ b) w =
    ((AgentBuilder.run_calls a w).1 ++
       (AgentBuilder.run_calls b (AgentBuilder.run_calls a w).2).1,
     (AgentBuilder.run_calls b (AgentBuilder.run_calls a w).2).2).
Proof.
  revert w. induction a as [|c a IH]; intros w; simpl.
  - by destruct (AgentBuilder.run_calls b w).
  - destruct (AgentBuilder.perform c w) as [out w1]. rewrite IH.
    by destruct (AgentBuilder.run_calls a w1).
Qed.

(** ** The registry over time *)

(** X1. Nothing revokes an identifier: once [generate_code] has issued one, at
    whatever point of a run and from whatever state, [run_tests] accepts it
    after any further calls, with the status [All tests passed.]. *)
Theorem issued_id_stays_valid (before after : list SdeAgent.call) (d : dict) (r : Z)
    (code : string) (w : world SdeAgent.globals) :
  let w' := (SdeAgent.run_calls (before ++ SdeAgent.GenerateCode d r :: after) w).2 in
  SdeAgent.run_tests (task_id_of r) code w' =
    (Return (passed "task_id" (task_id_of r)), w').
Proof.
  intros w'. apply sde_run_tests_known. subst w'.
  rewrite sde_run_calls_app. cbn [snd]. rewrite sde_run_calls_registry.
  cbn [SdeAgent.run_calls].
  destruct (sde_perform_generate d r (SdeAgent.run_calls before w).2) as [txt ->].
  destruct (SdeAgent.run_calls after _) as [log w2]. cbn. set_solver.
Qed.

(** The outcomes of the run steps in the log of a run of the QA module that
    starts with an empty [task_ids]. *)
Lemma qa_log_run_tests (qs : list AgentBuilder.call) (w : world AgentBuilder.globals)
    (id artifact : string) (out : result record) :
  AgentBuilder.task_ids (globals w) = ∅ ->
  (AgentBuilder.RunTests id artifact, out) ∈ (AgentBuilder.run_calls qs w).1 ->
  out = Return (invalid_task_id id).
Proof.
  revert w. induction qs as [|c qs IH]; intros w Hw; simpl.
  - by intros ?%elem_of_nil.
  - pose proof (qa_perform_registry c w) as [_ Ht].
    destruct (AgentBuilder.perform c w) as [o w1] eqn:E.
    specialize (IH w1). destruct (AgentBuilder.run_calls qs w1) as [log w2].
    simpl in *. intros [Heq|Hin]%elem_of_cons.
    + injection Heq as <- <-. unfold AgentBuilder.perform in E.
      rewrite call_run_tests_eq, qa_run_tests_unknown in E by (rewrite Hw; set_solver).
      by injection E as <- _.
    + apply IH; [|done]. by rewrite Ht.
Qed.

(** X2. The run step of the loaded QA module never passes: at every point of
    every run, for every identifier and artifact, the name [run_tests] returns
    the invalid-identifier record and leaves the state alone; and every run
    step logged in a run has that outcome. *)
Theorem qa_run_never_passes (qs : list AgentBuilder.call) (id artifact : string) :
  let v := (AgentBuilder.run_calls qs AgentBuilder.start).2 in
  AgentBuilder.call_run_tests id artifact v = (Return (invalid_task_id id), v)
  /\ forall id' artifact' out,
       (AgentBuilder.RunTests id' artifact', out) ∈
         (AgentBuilder.run_calls qs AgentBuilder.start).1 ->
       out = Return (invalid_task_id id').
Proof.
  intros v. split.
  - rewrite call_run_tests_eq. apply qa_run_tests_unknown.
    subst v. rewrite qa_task_ids_empty. set_solver.
  - intros id' artifact' out. by apply qa_log_run_tests.
Qed.

(** One call of the QA module in two states that differ in [qa_task_ids]
    only: the same outcome, and states that again differ in that set only. *)
Lemma qa_perform_ignores_qa_task_ids (c : AgentBuilder.call) (t q1 q2 : gset string)
    (h : heap) :
  let s1 := AgentBuilder.perform c (World (AgentBuilder.Globals t q1) h) in
  let s2 := AgentBuilder.perform c (World (AgentBuilder.Globals t q2) h) in
  s1.1 = s2.1
  /\ objects s1.2 = objects s2.2
  /\ AgentBuilder.task_ids (globals s1.2) = AgentBuilder.task_ids (globals s2.2).
Proof.
  destruct c as [d r|id artifact|a b fi|a b c]; cbn zeta.
  - destruct (qa_perform_generate d r (World (AgentBuilder.Globals t q1) h)) as [t1 E1].
    destruct (qa_perform_generate d r (World (AgentBuilder.Globals t q2) h)) as [t2 E2].
    pose proof (generate_tests_returns
      (World (AgentBuilder.Globals t q1) (h ++ [d])) (length h) d r (lookup_alloc _ _)) as R1.
    pose proof (generate_tests_returns
      (World (AgentBuilder.Globals t q2) (h ++ [d])) (length h) d r (lookup_alloc _ _)) as R2.
    unfold AgentBuilder.perform, bind in *. rewrite !alloc_spec in *.
    cbn [objects globals] in *. rewrite R1, R2 in *. by rewrite E1, E2.
  - unfold AgentBuilder.perform. rewrite call_run_tests_eq.
    unfold AgentBuilder.run_tests, bind, read_globals, ret. cbn [globals AgentBuilder.task_ids].
    by case_bool_decide.
  - unfold AgentBuilder.perform, AgentBuilder.return_feedback, bind, alloc, deref, ret.
    cbn [objects globals].
    by destruct (_ !! _); [destruct (_ !! _)|].
  - unfold AgentBuilder.perform, AgentBuilder.return_solution, bind, alloc, deref, ret.
    cbn [objects globals].
    by destruct (_ !! _); [destruct (_ !! _)|].
Qed.

(** X3. The set [qa_task_ids] is written and never read: two runs of the
    loaded QA module from states that differ in [qa_task_ids] only log the
    same outcome for every call. *)
Theorem qa_task_ids_never_read (qs : list AgentBuilder.call) (t q1 q2 : gset string)
    (h : heap) :
  (AgentBuilder.run_calls qs (World (AgentBuilder.Globals t q1) h)).1 =
  (AgentBuilder.run_calls qs (World (AgentBuilder.Globals t q2) h)).1.
Proof.
  revert t q1 q2 h. induction qs as [|c qs IH]; intros t q1 q2 h; [done|].
  cbn [AgentBuilder.run_calls].
  pose proof (qa_perform_ignores_qa_task_ids c t q1 q2 h) as (H1 & H2 & H3).
  destruct (AgentBuilder.perform c (World (AgentBuilder.Globals t q1) h))
    as [o1 [[t1 q1'] h1]].
  destruct (AgentBuilder.perform c (World (AgentBuilder.Globals t q2) h))
    as [o2 [[t2 q2'] h2]].
  cbn in H1, H2, H3. subst o2 h2 t2.
  specialize (IH t1 q1' q2' h1).
  destruct (AgentBuilder.run_calls qs (World (AgentBuilder.Globals t1 q1') h1)) as [l1 w1].
  destruct (AgentBuilder.run_calls qs (World (AgentBuilder.Globals t1 q2') h1)) as [l2 w2].
  cbn in *. by rewrite IH.
Qed.

(** ** Identifiers and draws *)

(** The identifiers a run issues are those of the draws of its generation
    calls, in order, whatever the details and the state. *)
Lemma sde_issued_draws (cs : list SdeAgent.call) (w : world SdeAgent.globals) :
  SdeAgent.issued (SdeAgent.run_calls cs w).1 = map task_id_of (sde_draws cs).
Proof.
  revert w. induction cs as [|c cs IH]; intros w; [done|].
  cbn [SdeAgent.run_calls].
  destruct c as [d r|id code|a b c'].
  - destruct (sde_perform_generate d r w) as [txt ->].
    specialize (IH (World (SdeAgent.Globals (SdeAgent.request_ids (globals w))
                      ({[task_id_of r]} ∪ SdeAgent.task_ids (globals w)))
                      (objects w ++ [dict_set "task_id" (DStr (task_id_of r)) d]))).
    destruct (SdeAgent.run_calls cs _) as [log w2]. cbn in *. f_equal. exact IH.
  - destruct (SdeAgent.perform (SdeAgent.RunTests id code) w) as [out w1].
    specialize (IH w1). destruct (SdeAgent.run_calls cs w1) as [log w2]. exact IH.
  - destruct (SdeAgent.perform (SdeAgent.ReturnSolution a b c') w) as [out w1].
    specialize (IH w1). destruct (SdeAgent.run_calls cs w1) as [log w2]. exact IH.
Qed.

Lemma qa_issued_draws (qs : list AgentBuilder.call) (w : world AgentBuilder.globals) :
  AgentBuilder.issued (AgentBuilder.run_calls qs w).1 = map qa_task_id_of (qa_draws qs).
Proof.
  revert w. induction qs as [|c qs IH]; intros w; [done|].
  cbn [AgentBuilder.run_calls].
  destruct c as [d r|id code|a b fi|a b c'].
  - destruct (qa_perform_generate d r w) as [txt ->].
    specialize (IH (World (AgentBuilder.Globals (AgentBuilder.task_ids (globals w))
                      ({[qa_task_id_of r]} ∪ AgentBuilder.qa_task_ids (globals w)))
                      (objects w ++ [dict_set "qa_task_id" (DStr (qa_task_id_of r)) d]))).
    destruct (AgentBuilder.run_calls qs _) as [log w2]. cbn in *. f_equal. exact IH.
  - destruct (AgentBuilder.perform (AgentBuilder.RunTests id code) w) as [out w1].
    specialize (IH w1). destruct (AgentBuilder.run_calls qs w1) as [log w2]. exact IH.
  - destruct (AgentBuilder.perform (AgentBuilder.ReturnFeedback a b fi) w) as [out w1].
    specialize (IH w1). destruct (AgentBuilder.run_calls qs w1) as [log w2]. exact IH.
  - destruct (AgentBuilder.perform (AgentBuilder.ReturnSolution a b c') w) as [out w1].
    specialize (IH w1). destruct (AgentBuilder.run_calls qs w1) as [log w2]. exact IH.
Qed.

Lemma NoDup_map_inj {A B : Type} (f : A -> B) (l : list A) :
  (forall x y, f x = f y -> x = y) -> NoDup l -> NoDup (map f l).
Proof.
  intros Hinj. induction 1 as [|x l Hx Hl IH]; simpl; constructor; [|done].
  intros (y & Hy & Hin)%list_elem_of_fmap. apply Hinj in Hy. by subst.
Qed.

(** X4. The identifiers of a run depend on the draws alone. When the
    generation calls of a run draw pairwise different numbers, the
    identifiers issued are pairwise different, and after a run from module
    load the set holds as many identifiers as there were generation calls;
    in the SDE module and in the QA module alike. *)
Theorem distinct_draws_unique_ids (cs : list SdeAgent.call) (qs : list AgentBuilder.call) :
  NoDup (sde_draws cs) ->
  NoDup (qa_draws qs) ->
  NoDup (SdeAgent.issued (SdeAgent.run_calls cs SdeAgent.start).1)
  /\ size (SdeAgent.task_ids (globals (SdeAgent.run_calls cs SdeAgent.start).2)) =
       length (sde_draws cs)
  /\ NoDup (AgentBuilder.issued (AgentBuilder.run_calls qs AgentBuilder.start).1)
  /\ size (AgentBuilder.qa_task_ids
             (globals (AgentBuilder.run_calls qs AgentBuilder.start).2)) =
       length (qa_draws qs).
Proof.
  intros Hs Hq.
  assert (NoDup (map task_id_of (sde_draws cs))) as Hs'
    by (apply NoDup_map_inj; [apply task_id_of_inj|done]).
  assert (NoDup (map qa_task_id_of (qa_draws qs))) as Hq'
    by (apply NoDup_map_inj; [apply qa_task_id_of_inj|done]).
  split; [by rewrite sde_issued_draws|]. split.
  - rewrite sde_run_calls_registry, sde_issued_draws.
    cbn [SdeAgent.start globals SdeAgent.module_init SdeAgent.task_ids].
    rewrite (right_id_L ∅ (∪)), size_list_to_set by done. by rewrite length_map.
  - split; [by rewrite qa_issued_draws|].
    destruct (qa_run_calls_registry qs AgentBuilder.start) as [-> _].
    rewrite qa_issued_draws.
    cbn [AgentBuilder.start globals AgentBuilder.module_init AgentBuilder.qa_task_ids].
    rewrite (right_id_L ∅ (∪)), size_list_to_set by done. by rewrite length_map.
Qed.

Lemma distinct_draws_unique_ids_witness :
  let cs := [SdeAgent.GenerateCode [] 1000000; SdeAgent.RunTests "task_id_1000000" "pass";
             SdeAgent.GenerateCode [] 1000001] in
  let qs := [AgentBuilder.GenerateTests [] 1000000; AgentBuilder.GenerateTests [] 9999999] in
  NoDup (sde_draws cs) /\ NoDup (qa_draws qs)
  /\ size (SdeAgent.task_ids (globals (SdeAgent.run_calls cs SdeAgent.start).2)) = 2%nat.
Proof.
  intros cs qs.
  assert (NoDup (sde_draws cs)) as Hs
    by (apply (bool_decide_unpack _); vm_compute; exact I).
  assert (NoDup (qa_draws qs)) as Hq
    by (apply (bool_decide_unpack _); vm_compute; exact I).
  split; [exact Hs|]. split; [exact Hq|].
  exact (proj1 (proj2 (distinct_draws_unique_ids cs qs Hs Hq))).
Defined.

(** ** The steps of a pipeline, one after the other *)

Lemma sde_perform_generate_exact (d : dict) (r : Z) (w : world SdeAgent.globals) :
  SdeAgent.perform (SdeAgent.GenerateCode d r) w =
    (Return [("task_id", Data (DStr (task_id_of r)));
             ("code", Data (DStr (code_text (task_id_of r)
                (entry_or_na "language" d) (entry_or_na "requirements" d)
                (entry_or_na "constraints" d))));
             ("task_details", Ref (length (objects w)))],
     World (SdeAgent.Globals (SdeAgent.request_ids (globals w))
              ({[task_id_of r]} ∪ SdeAgent.task_ids (globals w)))
           (objects w ++ [dict_set "task_id" (DStr (task_id_of r)) d])).
Proof.
  destruct (sde_perform_generate d r w) as [txt E].
  pose proof (generate_code_returns (World (globals w) (objects w ++ [d]))
                (length (objects w)) d r (lookup_alloc _ _)) as R.
  assert ((SdeAgent.perform (SdeAgent.GenerateCode d r) w).1 =
          (SdeAgent.generate_code (length (objects w)) r
             (World (globals w) (objects w ++ [d]))).1) as Hp by done.
  rewrite R, E in Hp. cbn [fst] in Hp. by rewrite E, Hp.
Qed.


Lemma lookup_alloc3 (h : heap) (a b c : dict) :
  (((h ++ [a]) ++ [b]) ++ [c]) !! length h = Some a
  /\ (((h ++ [a]) ++ [b]) ++ [c]) !! length (h ++ [a]) = Some b
  /\ (((h ++ [a]) ++ [b]) ++ [c]) !! length ((h ++ [a]) ++ [b]) = Some c.
Proof.
  split; [|split].
  - rewrite <- !(assoc_L (++)). by apply list_lookup_middle.
  - rewrite <- (assoc_L (++) (h ++ [a])). by apply list_lookup_middle.
  - by apply list_lookup_middle.
Qed.

(** A finalize call of a turn in the SDE module: three new dict objects,
    and the record [return_solution] makes of them. *)
Lemma sde_perform_solution (a b c : dict) (w : world SdeAgent.globals) :
  SdeAgent.perform (SdeAgent.ReturnSolution a b c) w =
    (Return [("task_id", Data (dict_get "task_id" (DStr "") b));
             ("code", Data (dict_get "code" (DStr "") b));
             ("test_status", Data (dict_get "status" (DStr "") c));
             ("task_details", Ref (length (objects w)))],
     World (globals w) (((objects w ++ [a]) ++ [b]) ++ [c])).
Proof.
  destruct (lookup_alloc3 (objects w) a b c) as (_ & Hb & Hc).
  unfold SdeAgent.perform, SdeAgent.return_solution, bind, alloc, deref, ret.
  cbn [objects globals]. rewrite Hb. cbn [objects globals]. by rewrite Hc.
Qed.


(** X5. The SDE pipeline end to end, from any state: when the record of
    [generate_code] is handed on to [run_tests] and, with the outcome of
    [run_tests], to [return_solution], the solution carries the identifier
    that was issued, the artifact that was generated, the status
    [All tests passed.], and a reference to a details object that holds the
    caller's details with the identifier stamped in. *)
Theorem sde_pipeline_end_to_end (d : dict) (r : Z) (w : world SdeAgent.globals) :
  let s1 := SdeAgent.perform (SdeAgent.GenerateCode d r) w in
  let code_info := handed_on (objects s1.2) s1.1 in
  let s2 := SdeAgent.perform
              (SdeAgent.RunTests (str (dict_get "task_id" DNone code_info))
                                 (str (dict_get "code" DNone code_info))) s1.2 in
  let test_results := handed_on (objects s2.2) s2.1 in
  let s3 := SdeAgent.perform
              (SdeAgent.ReturnSolution (as_dict (dict_get "task_details" DNone code_info))
                                       code_info test_results) s2.2 in
  s3.1 = Return [("task_id", Data (DStr (task_id_of r)));
                 ("code", Data (DStr (code_text (task_id_of r)
                    (entry_or_na "language" d) (entry_or_na "requirements" d)
                    (entry_or_na "constraints" d))));
                 ("test_status", Data (DStr "All tests passed."));
                 ("task_details", Ref (S (length (objects w))))]
  /\ objects s3.2 !! S (length (objects w)) =
       Some (dict_set "task_id" (DStr (task_id_of r)) d)
  /\ globals s3.2 = SdeAgent.Globals (SdeAgent.request_ids (globals w))
                      ({[task_id_of r]} ∪ SdeAgent.task_ids (globals w)).
Proof.
  cbv zeta. rewrite sde_perform_generate_exact.
  cbn [fst snd objects globals handed_on snapshot map]. rewrite lookup_alloc.
  cbn [default from_option id dict_get dict_lookup String.eqb Ascii.eqb Bool.eqb str as_dict].
  change (SdeAgent.perform (SdeAgent.RunTests ?a ?b) ?w) with (SdeAgent.run_tests a b w).
  rewrite sde_run_tests_known by (cbn; set_solver).
  cbn [fst snd objects globals handed_on]. rewrite sde_perform_solution.
  cbn [fst snd objects globals dict_get dict_lookup String.eqb Ascii.eqb Bool.eqb
       snapshot passed map].
  assert (length (objects w ++ [dict_set "task_id" (DStr (task_id_of r)) d]) =
          S (length (objects w))) as Hlen by (rewrite length_app; simpl; lia).
  rewrite Hlen. split; [done|]. split; [|done].
  rewrite <- Hlen.
  rewrite <- !(assoc_L (++) (objects w ++ [dict_set "task_id" (DStr (task_id_of r)) d])).
  by apply list_lookup_middle.
Qed.


(** ** One details object, two generations *)

Lemma dict_set_set {A : Type} (k : string) (v1 v2 : A) (d : list (string * A)) :
  dict_set k v2 (dict_set k v1 d) = dict_set k v2 d.
Proof.
  induction d as [|[k' v'] d IH]; simpl.
  - by rewrite String.eqb_refl.
  - destruct (String.eqb k k') eqn:E; simpl.
    + by rewrite String.eqb_refl.
    + by rewrite E, IH.
Qed.

Lemma entry_or_na_stamped (k key : string) (v : data) (d : dict) :
  key <> k -> entry_or_na k (dict_set key v d) = entry_or_na k d.
Proof. intros H. unfold entry_or_na. by rewrite dict_lookup_set_ne. Qed.

(** X7. When [generate_code] is called twice on the same details object,
    the second identifier replaces the first in the object: the object ends
    as if it had been stamped once, with the second identifier. Both records
    refer to that one object, so the details of the first record now show an
    identifier that is not the record's own. Both identifiers are in the set,
    and the artifact prints the same three entries both times. *)
Theorem regenerate_restamps_shared_details (w : world SdeAgent.globals) (l : loc)
    (d : dict) (r1 r2 : Z) :
  objects w !! l = Some d ->
  let s1 := SdeAgent.generate_code l r1 w in
  let s2 := SdeAgent.generate_code l r2 s1.2 in
  handed_on (objects s1.2) s1.1 =
    [("task_id", DStr (task_id_of r1));
     ("code", DStr (code_text (task_id_of r1) (entry_or_na "language" d)
        (entry_or_na "requirements" d) (entry_or_na "constraints" d)));
     ("task_details", DDict (dict_set "task_id" (DStr (task_id_of r1)) d))]
  /\ handed_on (objects s2.2) s1.1 =
    [("task_id", DStr (task_id_of r1));
     ("code", DStr (code_text (task_id_of r1) (entry_or_na "language" d)
        (entry_or_na "requirements" d) (entry_or_na "constraints" d)));
     ("task_details", DDict (dict_set "task_id" (DStr (task_id_of r2)) d))]
  /\ handed_on (objects s2.2) s2.1 =
    [("task_id", DStr (task_id_of r2));
     ("code", DStr (code_text (task_id_of r2) (entry_or_na "language" d)
        (entry_or_na "requirements" d) (entry_or_na "constraints" d)));
     ("task_details", DDict (dict_set "task_id" (DStr (task_id_of r2)) d))]
  /\ SdeAgent.task_ids (globals s2.2) =
       {[task_id_of r2]} ∪ ({[task_id_of r1]} ∪ SdeAgent.task_ids (globals w)).
Proof.
  intros Hl. cbv zeta.
  assert (l < length (objects w))%nat as Hlt by (eapply lookup_lt_Some; eauto).
  pose proof (generate_code_returns w l d r1 Hl) as R1.
  destruct (generate_code_spec w l d r1 Hl) as [c1 E1].
  rewrite E1 in R1 |- *. cbn [fst snd] in *. injection R1 as ->.
  set (w1 := World (SdeAgent.Globals (SdeAgent.request_ids (globals w))
                 ({[task_id_of r1]} ∪ SdeAgent.task_ids (globals w)))
              (<[l:=dict_set "task_id" (DStr (task_id_of r1)) d]> (objects w))) in *.
  assert (objects w1 !! l = Some (dict_set "task_id" (DStr (task_id_of r1)) d)) as Hl1
    by (by apply list_lookup_insert_eq).
  pose proof (generate_code_returns w1 l _ r2 Hl1) as R2.
  destruct (generate_code_spec w1 l _ r2 Hl1) as [c2 E2].
  rewrite E2 in R2 |- *. cbn [fst snd objects globals] in *. injection R2 as ->.
  rewrite !entry_or_na_stamped by done.
  subst w1. cbn [objects globals SdeAgent.task_ids SdeAgent.request_ids] in *.
  rewrite list_insert_insert_eq, dict_set_set.
  cbn [handed_on snapshot map fst snd].
  rewrite Hl1, list_lookup_insert_eq by done. done.
Qed.

Lemma regenerate_restamps_shared_details_witness :
  let w := World SdeAgent.module_init [[("language", DStr "python")]] in
  let s1 := SdeAgent.generate_code 0 1000000 w in
  let s2 := SdeAgent.generate_code 0 2000000 s1.2 in
  SdeAgent.task_ids (globals s2.2) =
    {[task_id_of 2000000]} ∪ ({[task_id_of 1000000]} ∪ SdeAgent.task_ids (globals w)).
Proof.
  exact (proj2 (proj2 (proj2 (regenerate_restamps_shared_details
    (World SdeAgent.module_init [[("language", DStr "python")]])
    0%nat [("language", DStr "python")] 1000000 2000000 eq_refl)))).
Defined.

(** ** Streams that fault, and what a stream looks at *)

Lemma on_event_raises_attribute (updates : string) (ev : event) :
  faulty ev = true ->
  on_event updates ev =
    Raise (AttributeError "'NoneType' object has no attribute 'model_dump'").
Proof.
  unfold faulty, on_event. destruct (is_final_response ev); [|done].
  destruct (parts_of (event_content ev)) as [|p0 ps]; [done|].
  destruct (truthy_text (text p0)); [done|].
  cbn [existsb]. destruct (function_response p0) as [dump|] eqn:E.
  - rewrite bool_decide_eq_true_2 by eauto. done.
  - rewrite (bool_decide_eq_false_2 (is_Some None)) by (by intros [? ?]).
    cbn. by intros ->.
Qed.

Lemma stream_events_app (updates : string) (pre rest : list event) :
  Forall (fun ev => faulty ev = false) pre ->
  stream_events updates (pre ++ rest) =
    ((stream_events updates pre).1 ++ (stream_events updates rest).1,
     (stream_events updates rest).2).
Proof.
  induction 1 as [|ev pre Hev _ IH]; simpl.
  - by destruct (stream_events updates rest).
  - destruct (on_event_flag updates ev Hev) as (item & -> & _). rewrite IH.
    destruct (stream_events updates pre) as [items fault].
    by destruct (stream_events updates rest).
Qed.

(** X8. A stream stops at the first event on which the loop raises: the
    items yielded are those of the events before it, one each and in order,
    the generator then ends with an AttributeError, and nothing is yielded for
    that final response or for any later event. This holds for the [stream]
    of the three classes. *)
Theorem stream_stops_at_first_fault (query session_id : string)
    (before after : list event) (ev : event) (w : world runner) :
  Forall (fun e => faulty e = false) before ->
  faulty ev = true ->
  let fault := Some (AttributeError "'NoneType' object has no attribute 'model_dump'") in
  let produced := before ++ ev :: after in
  (exists items,
     (SdeAgent.SDEAgent.stream query session_id produced w).1 = Return (items, fault)
     /\ map is_task_complete items = map is_final_response before)
  /\ (exists items,
     (AgentBuilder.AgentBuilderTemplate.stream query session_id produced w).1 =
       Return (items, fault)
     /\ map is_task_complete items = map is_final_response before)
  /\ (exists items,
     (CoordinatorAgent.stream query session_id produced w).1 = Return (items, fault)
     /\ map is_task_complete items = map is_final_response before).
Proof.
  intros Hok Hev fault produced. subst produced.
  destruct (stream_methods query session_id (before ++ ev :: after) w) as (-> & -> & ->).
  assert (forall updates, exists items,
    stream_events updates (before ++ ev :: after) = (items, fault)
    /\ map is_task_complete items = map is_final_response before) as H.
  { intros updates. rewrite stream_events_app by done.
    destruct (stream_events_flags updates before Hok) as (items & -> & Hflags).
    exists items. cbn [stream_events]. rewrite on_event_raises_attribute by done.
    cbn. by rewrite (right_id_L [] (++)). }
  destruct (H "Processing the SDE request...") as (i1 & -> & H1).
  destruct (H "Processing the QA request...") as (i2 & -> & H2).
  eauto 10.
Qed.

Lemma stream_stops_at_first_fault_witness :
  let progress := Event None false in
  let broken := Event (Some (Content (Some [Part None None; Part None (Some DNone)]))) true in
  exists items,
    (CoordinatorAgent.stream "query" "session" [progress; broken; progress]
       (World (Runner ∅) [])).1 =
      Return (items, Some (AttributeError "'NoneType' object has no attribute 'model_dump'"))
    /\ map is_task_complete items = [false].
Proof.
  intros progress broken.
  assert (Forall (fun e => faulty e = false) [progress]) as Hok by (repeat constructor).
  exact (proj2 (proj2 (stream_stops_at_first_fault "query" "session"
    [progress] [progress] broken (World (Runner ∅) []) Hok eq_refl))).
Defined.

Lemma stream_events_mask (updates : string) (evs : list event) :
  stream_events updates (map mask evs) = stream_events updates evs.
Proof.
  induction evs as [|ev evs IH]; [done|]. simpl. rewrite IH.
  assert (on_event updates (mask ev) = on_event updates ev) as ->; [|done].
  unfold mask, on_event. by destruct (is_final_response ev) eqn:E; [rewrite E|].
Qed.

(** X9. A stream shows nothing of the events that are not final responses:
    when the content of every such event of a run is blanked, the [stream] of
    each of the three classes yields the same items and ends the same way. *)
Theorem stream_hides_progress_events (query session_id : string) (produced : list event)
    (w : world runner) :
  (SdeAgent.SDEAgent.stream query session_id (map mask produced) w).1 =
    (SdeAgent.SDEAgent.stream query session_id produced w).1
  /\ (AgentBuilder.AgentBuilderTemplate.stream query session_id (map mask produced) w).1 =
    (AgentBuilder.AgentBuilderTemplate.stream query session_id produced w).1
  /\ (CoordinatorAgent.stream query session_id (map mask produced) w).1 =
    (CoordinatorAgent.stream query session_id produced w).1.
Proof.
  destruct (stream_methods query session_id (map mask produced) w) as (-> & -> & ->).
  destruct (stream_methods query session_id produced w) as (-> & -> & ->).
  by rewrite !stream_events_mask.
Qed.

(** ** [invoke] next to [stream] *)

Lemma last_event_text_snoc (before : list event) (ev : event) :
  last_event_text (before ++ [ev]) = join nl (texts (parts_of (event_content ev))).
Proof. unfold last_event_text. by rewrite last_snoc. Qed.

(** X10. [invoke] reads the last event of the run and nothing else: the text
    returned is that of the last event, whatever the events before it, and
    whether or not the last event is a final response. *)
Theorem invoke_reads_last_event_only (query session_id : string)
    (before : list event) (content : option content) (final : bool) (w : world runner) :
  let text := join nl (texts (parts_of content)) in
  (AgentBuilder.AgentBuilderTemplate.invoke query session_id
     (before ++ [Event content final]) w).1 = Return text
  /\ (CoordinatorAgent.invoke query session_id
     (before ++ [Event content final]) w).1 = Return text.
Proof.
  intros text.
  destruct (invoke_of_list_returns_text query session_id
              (before ++ [Event content final]) w) as [-> ->].
  by rewrite last_event_text_snoc.
Qed.

Lemma stream_events_last_final (updates : string) (before : list event) (ev : event)
    (item : dict) :
  Forall (fun e => faulty e = false) before ->
  on_event updates ev = Return item ->
  exists items, stream_events updates (before ++ [ev]) = (items, None)
    /\ last items = Some item.
Proof.
  intros Hok Hev. rewrite stream_events_app by done.
  destruct (stream_events_flags updates before Hok) as (items & -> & _).
  exists (items ++ [item]). cbn [stream_events]. rewrite Hev. cbn.
  split; [done|]. by rewrite last_snoc.
Qed.

(** X11. [invoke] and [stream] agree on a run that ends with a final response
    whose first part has a text, provided no earlier event of the run is one
    on which the loop of [stream] raises: the content of the last item of the
    stream is the text [invoke] returns, the texts of all parts joined by
    newlines (classes [AgentBuilderTemplate] and [CoordinatorAgent]). *)
Theorem invoke_and_stream_agree (query session_id : string) (before : list event)
    (ev : event) (p0 : part) (ps : list part) (w : world runner) :
  Forall (fun e => faulty e = false) before ->
  is_final_response ev = true ->
  parts_of (event_content ev) = p0 :: ps ->
  truthy_text (text p0) = true ->
  let produced := before ++ [ev] in
  let t := join nl (texts (p0 :: ps)) in
  let terminal := [("is_task_complete", DBool true); ("content", DStr t)] in
  (AgentBuilder.AgentBuilderTemplate.invoke query session_id produced w).1 = Return t
  /\ (exists items,
       (AgentBuilder.AgentBuilderTemplate.stream query session_id produced w).1 =
         Return (items, None)
       /\ last items = Some terminal)
  /\ (CoordinatorAgent.invoke query session_id produced w).1 = Return t
  /\ (exists items,
       (CoordinatorAgent.stream query session_id produced w).1 = Return (items, None)
       /\ last items = Some terminal).
Proof.
  intros Hok Hfinal Hparts Htext produced t terminal. subst produced.
  destruct (invoke_of_list_returns_text query session_id (before ++ [ev]) w) as [-> ->].
  destruct (stream_methods query session_id (before ++ [ev]) w) as (_ & -> & ->).
  rewrite last_event_text_snoc, Hparts.
  assert (forall updates, on_event updates ev = Return terminal) as Hev.
  { intros updates. unfold on_event. by rewrite Hfinal, Hparts, Htext. }
  destruct (stream_events_last_final "Processing the QA request..." before ev terminal
              Hok (Hev _)) as (i1 & -> & L1).
  destruct (stream_events_last_final "Processing the SDE request..." before ev terminal
              Hok (Hev _)) as (i2 & -> & L2).
  eauto 10.
Qed.

Lemma invoke_and_stream_agree_witness :
  let ev := Event (Some (Content (Some [Part (Some "Done.") None; Part (Some "Bye.") None])))
                  true in
  (AgentBuilder.AgentBuilderTemplate.invoke "query" "session" [Event None false; ev]
     (World (Runner ∅) [])).1 =
    Return (join nl (texts [Part (Some "Done.") None; Part (Some "Bye.") None])).
Proof.
  intros ev.
  assert (Forall (fun e => faulty e = false) [Event None false]) as Hok
    by (repeat constructor).
  exact (proj1 (invoke_and_stream_agree "query" "session" [Event None false] ev
    (Part (Some "Done.") None) [Part (Some "Bye.") None] (World (Runner ∅) [])
    Hok eq_refl eq_refl eq_refl)).
Defined.

Lemma texts_not_empty_text (ps : list part) (t : string) (ts : list string) :
  texts ps = t :: ts -> t <> "".
Proof.
  induction ps as [|p ps IH]; [done|]. unfold texts in *. simpl.
  destruct (truthy_text (text p)) eqn:E.
  - destruct (text p) as [s|]; [|done]. simpl in E. intros [= <- _] ->. done.
  - exact IH.
Qed.

Lemma join_not_empty (sep t : string) (ts : list string) :
  t <> "" -> join sep (t :: ts) <> "".
Proof.
  intros Ht. unfold join. destruct t as [|c t]; [done|].
  destruct ts; simpl; discriminate.
Qed.

(** X12. [invoke] and [stream] differ on a run that ends with a final
    response whose first part has no text while a later part has one, and no
    part has a function response, provided no earlier event of the run is one
    on which the loop of [stream] raises: [invoke] returns the texts of the
    later parts, which is not the empty text, and the last item of the stream
    has the empty text as content (classes [AgentBuilderTemplate] and
    [CoordinatorAgent]). *)
Theorem stream_drops_text_after_empty_first_part (query session_id : string)
    (before : list event) (ev : event) (p0 : part) (ps : list part) (w : world runner) :
  Forall (fun e => faulty e = false) before ->
  is_final_response ev = true ->
  parts_of (event_content ev) = p0 :: ps ->
  truthy_text (text p0) = false ->
  existsb has_function_response (p0 :: ps) = false ->
  texts ps <> [] ->
  let produced := before ++ [ev] in
  let t := join nl (texts ps) in
  let terminal := [("is_task_complete", DBool true); ("content", DStr "")] in
  t <> ""
  /\ (AgentBuilder.AgentBuilderTemplate.invoke query session_id produced w).1 = Return t
  /\ (exists items,
       (AgentBuilder.AgentBuilderTemplate.stream query session_id produced w).1 =
         Return (items, None)
       /\ last items = Some terminal)
  /\ (CoordinatorAgent.invoke query session_id produced w).1 = Return t
  /\ (exists items,
       (CoordinatorAgent.stream query session_id produced w).1 = Return (items, None)
       /\ last items = Some terminal).
Proof.
  intros Hok Hfinal Hparts Htext Hfr Hts produced t terminal. subst produced.
  destruct (invoke_of_list_returns_text query session_id (before ++ [ev]) w) as [-> ->].
  destruct (stream_methods query session_id (before ++ [ev]) w) as (_ & -> & ->).
  rewrite last_event_text_snoc, Hparts.
  assert (texts (p0 :: ps) = texts ps) as ->.
  { unfold texts. simpl. by rewrite Htext. }
  assert (forall updates, on_event updates ev = Return terminal) as Hev.
  { intros updates. unfold on_event. rewrite Hfinal, Hparts, Htext.
    unfold has_function_response in Hfr. by rewrite Hfr. }
  destruct (stream_events_last_final "Processing the QA request..." before ev terminal
              Hok (Hev _)) as (i1 & -> & L1).
  destruct (stream_events_last_final "Processing the SDE request..." before ev terminal
              Hok (Hev _)) as (i2 & -> & L2).
  split; [|eauto 10].
  subst t. destruct (texts ps) as [|t0 ts] eqn:E; [done|].
  apply join_not_empty. by eapply texts_not_empty_text.
Qed.

Lemma stream_drops_text_after_empty_first_part_witness :
  let ev := Event (Some (Content (Some [Part None None; Part (Some "Done.") None]))) true in
  (AgentBuilder.AgentBuilderTemplate.invoke "query" "session" [ev]
     (World (Runner ∅) [])).1 = Return (join nl (texts [Part (Some "Done.") None]))
  /\ exists items,
       (AgentBuilder.AgentBuilderTemplate.stream "query" "session" [ev]
          (World (Runner ∅) [])).1 = Return (items, None)
       /\ last items = Some [("is_task_complete", DBool true); ("content", DStr "")].
Proof.
  intros ev.
  assert (texts [Part (Some "Done.") None] <> []) as Hts by discriminate.
  assert (Forall (fun e => faulty e = false) []) as Hok by constructor.
  pose proof (stream_drops_text_after_empty_first_part "query" "session" [] ev
    (Part None None) [Part (Some "Done.") None] (World (Runner ∅) [])
    Hok eq_refl eq_refl eq_refl eq_refl Hts) as H.
  exact (conj (proj1 (proj2 H)) (proj1 (proj2 (proj2 H)))).
Defined.

(** ** Process start *)

Ltac start_cases lib :=
  destruct lib as [[?|] [?|] [?|] [?|] [?|] [?|] [?|]].

(** X14. Without the credential no server is started: when
    [GOOGLE_API_KEY] is not set, or set to the empty text, each of the four
    [main] functions and the [main] of [builder.py] logs one error line that
    names the variable and exits with status 1, whatever the libraries would
    do. *)
Theorem start_refused_without_api_key (env : gmap string string) (lib : library)
    (host : string) (port : Z) :
  truthy_text (getenv env "GOOGLE_API_KEY") = false ->
  let refusal : P unit :=
    ([LogError "Error: GOOGLE_API_KEY environment variable not set."], Exited 1) in
  SdeMain.main env lib host port = refusal
  /\ QaMain.main env lib host port = refusal
  /\ CoordinatorMain.main env lib host port = refusal
  /\ PythonSdeMain.main env lib host port = refusal
  /\ Builder.main env lib host port = refusal.
Proof.
  intros Hkey refusal.
  unfold SdeMain.main, QaMain.main, CoordinatorMain.main, PythonSdeMain.main,
    Builder.main, Builder.init, require_api_key.
  rewrite Hkey. by cbn.
Qed.

Lemma start_refused_without_api_key_witness :
  SdeMain.main {["GOOGLE_API_KEY" := ""]} (Library None None None None None None None)
    "localhost" 10004 =
    ([LogError "Error: GOOGLE_API_KEY environment variable not set."], Exited 1).
Proof.
  exact (proj1 (start_refused_without_api_key {["GOOGLE_API_KEY" := ""]}
    (Library None None None None None None None) "localhost" 10004 eq_refl)).
Defined.

(** X15. Each of the four [main] functions ends in one of two ways,
    whatever the environment and the libraries do: it has put exactly one
    server to listen, on the host and port it was given and with the url made
    of them, and then the credential is set and not empty; or it has logged
    one error line and exits with status 1. No exception leaves [main], and
    no other status is used. *)
Theorem main_starts_or_exits (env : gmap string string) (lib : library)
    (host : string) (port : Z) :
  let ends_well (m : P unit) :=
    (exists s, m = ([Started s], Done tt)
       /\ truthy_text (getenv env "GOOGLE_API_KEY") = true
       /\ card_url s = card_url_of host port
       /\ listen_host s = host /\ listen_port s = port)
    \/ refused m in
  ends_well (SdeMain.main env lib host port)
  /\ ends_well (QaMain.main env lib host port)
  /\ ends_well (CoordinatorMain.main env lib host port)
  /\ ends_well (PythonSdeMain.main env lib host port).
Proof.
  intros ends_well. subst ends_well.
  unfold SdeMain.main, QaMain.main, CoordinatorMain.main, PythonSdeMain.main,
    require_api_key, refused.
  destruct (truthy_text (getenv env "GOOGLE_API_KEY")) eqn:Hkey; cbn.
  - unfold start. repeat split;
      repeat (match goal with
              | |- context [library_call ?x] => destruct x as [[[] ?]|] eqn:?
              | |- context [match ?x with Some _ => _ | None => _ end] =>
                  destruct x as [[[] ?]|] eqn:?
              end; cbn; try solve [eauto 10]).
  - repeat split; eauto.
Qed.

(** X16. [build] needs both setters: it returns a server only when
    [set_skills] and [set_llm_agent] were called on the builder, and the
    server then has the skills that were set and the name that was given;
    in every other case, and when a library raises, it logs one error line
    and exits with status 1. *)
Theorem build_needs_setters (lib : library) (self : Builder.agent_builder)
    (name description : string) :
  (exists s, Builder.build lib self name description = ([], Done s)
     /\ Builder._skills self = Some (card_skills s)
     /\ is_Some (Builder._llm_agent self)
     /\ card_name s = name)
  \/ refused (Builder.build lib self name description).
Proof.
  unfold Builder.build, refused.
  destruct self as [[h|] [p|] [a|] [sk|]]; start_cases lib; cbn; eauto 10.
Qed.

(** X17. A failure of [server.start()] is handled in the four [main]
    functions and not in [builder.py]: with the credential set and every other
    library call succeeding, an exception of [server.start()] makes each of
    the four [main] functions log one error line and exit with status 1, and
    it leaves the [main] of [builder.py] as it is, with nothing logged. *)
Theorem start_failure_handled_in_mains_only (env : gmap string string) (lib : library)
    (host : string) (port : Z) (e : exc) :
  truthy_text (getenv env "GOOGLE_API_KEY") = true ->
  capabilities_fails lib = None -> skill_fails lib = None ->
  agent_card_fails lib = None -> llm_agent_fails lib = None ->
  server_fails lib = None -> add_middleware_fails lib = None ->
  start_fails lib = Some e ->
  refused (SdeMain.main env lib host port)
  /\ refused (QaMain.main env lib host port)
  /\ refused (CoordinatorMain.main env lib host port)
  /\ refused (PythonSdeMain.main env lib host port)
  /\ Builder.main env lib host port = ([], Raised e).
Proof.
  intros Hkey H1 H2 H3 H4 H5 H6 H7. destruct lib; cbn in *; subst.
  unfold SdeMain.main, QaMain.main, CoordinatorMain.main, PythonSdeMain.main,
    Builder.main, Builder.init, Builder.build, require_api_key, refused.
  rewrite Hkey. destruct e as [[] msg]; cbn; repeat split; eauto.
Qed.

Lemma start_failure_handled_in_mains_only_witness :
  Builder.main {["GOOGLE_API_KEY" := "key"]}
    (Library None None None None None None (Some (Exc OtherException "address in use")))
    "localhost" 10005 =
    ([], Raised (Exc OtherException "address in use")).
Proof.
  exact (proj2 (proj2 (proj2 (proj2 (start_failure_handled_in_mains_only
    {["GOOGLE_API_KEY" := "key"]}
    (Library None None None None None None (Some (Exc OtherException "address in use")))
    "localhost" 10005 (Exc OtherException "address in use")
    eq_refl eq_refl eq_refl eq_refl eq_refl eq_refl eq_refl eq_refl))))).
Defined.
